(** * Attendance check-in: a shallow embedding of the Express/Prisma backend

    The development follows the backend sources:

    - [backend/src/middleware/auth.js]: [authenticateToken],
      [authorizeRoles], [isOwnerOrAdmin];
    - [backend/src/routes/attendance.js]: [POST /generate-qr],
      [POST /scan], [GET /student];
    - [backend/src/routes/users.js]: [DELETE /:id].

    Every route handler is an [async] function: it alternates synchronous
    JavaScript with [await prisma.<model>.<op>(...)] calls.  A handler is
    embedded as a finite tree of type [Async Response] whose nodes are the
    awaited storage calls, the clock reads ([new Date()], [Date.now()]) and
    the [Math.random()] draws, in source order.  The same tree is given a
    run-to-completion semantics ([run]) and an interleaving semantics
    ([interleave]) in which two requests take turns at their [await]s. *)

From Stdlib Require Import ZArith String Ascii List Bool Lia.
From Stdlib Require Import Floats.SpecFloat.
From stdpp Require Import gmap strings list fin_maps pretty sorting.

Local Open Scope Z_scope.

(** ** Data model *)

Inductive Role := STUDENT | TEACHER | ADMIN.

Inductive AttendanceStatus := PRESENT | ABSENT | LATE.

#[global] Instance Role_eq_dec : EqDecision Role.
Proof. solve_decision. Defined.

#[global] Instance AttendanceStatus_eq_dec : EqDecision AttendanceStatus.
Proof. solve_decision. Defined.

(** Rows carry the columns the modelled handlers read or write.  The
    storage-assigned [id] and [createdAt] of [Attendance] and [QRCode] rows
    and the email and password of a user never decide a branch and are left
    out; the primary key of a user or a class is its key in the table. *)

Record User := {
  user_name : string;
  user_role : Role;
}.

Record StudentProfile := {
  sp_id : string;
  sp_userId : string;
}.

Record TeacherProfile := {
  tp_id : string;
  tp_userId : string;
}.

Record AdminProfile := {
  ap_id : string;
  ap_userId : string;
}.

Record Class := {
  class_name : string;
  class_teacherId : string;
}.

Record QRCode := {
  qr_classId : string;
  qr_code : string;
  qr_expiresAt : Z;            (* milliseconds since the epoch *)
}.

Record Enrollment := {
  enr_studentId : string;      (* a StudentProfile id *)
  enr_classId : string;
}.

Record Attendance := {
  att_studentId : string;      (* a StudentProfile id *)
  att_classId : string;
  att_date : Z;                (* milliseconds since the epoch *)
  att_status : AttendanceStatus;
  att_qrCode : option string;
}.

#[global] Instance Attendance_eq_dec : EqDecision Attendance.
Proof. solve_decision. Defined.

(** The result of [prisma.user.findUnique] with the three profiles
    included, as [authenticateToken] stores it in [req.user]. *)
Record AuthUser := {
  au_id : string;
  au_role : Role;
  studentProfile : option StudentProfile;
  teacherProfile : option TeacherProfile;
  adminProfile : option AdminProfile;
}.

(** The tables.  Every table that the sources query with [findUnique] is a
    finite map on the unique key used there: users by [id], profiles by
    [userId], classes by [id], QR codes by [code], enrollments by the
    compound key [studentId_classId].  Attendance is only ever queried with
    [findFirst] and [findMany]; it is a list of rows in insertion order. *)
Record DB := {
  users : gmap string User;
  studentProfiles : gmap string StudentProfile;
  teacherProfiles : gmap string TeacherProfile;
  adminProfiles : gmap string AdminProfile;
  classes : gmap string Class;
  qrCodes : gmap string QRCode;
  enrollments : gset (string * string);
  attendances : list Attendance;
}.

Definition set_attendances (l : list Attendance) (d : DB) : DB :=
  {| users := users d; studentProfiles := studentProfiles d;
     teacherProfiles := teacherProfiles d; adminProfiles := adminProfiles d;
     classes := classes d; qrCodes := qrCodes d;
     enrollments := enrollments d; attendances := l |}.

Definition set_qrCodes (m : gmap string QRCode) (d : DB) : DB :=
  {| users := users d; studentProfiles := studentProfiles d;
     teacherProfiles := teacherProfiles d; adminProfiles := adminProfiles d;
     classes := classes d; qrCodes := m;
     enrollments := enrollments d; attendances := attendances d |}.

(** ** Storage calls *)

Inductive Query :=
| UserFindUnique (id : string)
| UserDelete (id : string)
| TeacherProfileFindUnique (userId : string)
| ClassFindUnique (id : string)
| QRCodeFindUnique (code : string)
| QRCodeCreate (data : QRCode)
| EnrollmentFindUnique (studentId classId : string)
| AttendanceFindFirst (studentId classId : string) (gte lt : Z)
| AttendanceFindMany (studentId : string)
| AttendanceCreate (data : Attendance).

(** What the promise of each call resolves to. *)
Definition answer (q : Query) : Type :=
  match q with
  | UserFindUnique _ => option AuthUser
  | UserDelete _ => User
  | TeacherProfileFindUnique _ => option TeacherProfile
  | ClassFindUnique _ => option Class
  | QRCodeFindUnique _ => option (QRCode * option Class)
  | QRCodeCreate _ => QRCode
  | EnrollmentFindUnique _ _ => option Enrollment
  | AttendanceFindFirst _ _ _ _ => option Attendance
  | AttendanceFindMany _ => list Attendance
  | AttendanceCreate _ => Attendance
  end.

(** A promise settles: it is fulfilled with a value or rejected. *)
Inductive Settled (A : Type) :=
| Fulfilled (a : A)
| Rejected.
Arguments Fulfilled {A} a.
Arguments Rejected {A}.

(** [include: { studentProfile: true, teacherProfile: true,
    adminProfile: true }] on the user row with primary key [id]. *)
Definition withProfiles (d : DB) (id : string) (u : User) : AuthUser :=
  {| au_id := id; au_role := user_role u;
     studentProfile := studentProfiles d !! id;
     teacherProfile := teacherProfiles d !! id;
     adminProfile := adminProfiles d !! id |}.

(** The [where] clause of the [findFirst] in [POST /scan]. *)
Definition attendanceMatches (studentId classId : string) (gte lt : Z)
    (a : Attendance) : bool :=
  bool_decide (att_studentId a = studentId)
  && bool_decide (att_classId a = classId)
  && (gte <=? att_date a) && (att_date a <? lt).

(** [orderBy: { date: 'desc' }]. *)
Definition dateDesc (a b : Attendance) : Prop := att_date b <= att_date a.

#[global] Instance dateDesc_dec : RelDecision dateDesc.
Proof. intros a b. unfold dateDesc. apply _. Defined.

(** Whether a row's [studentId] column references the given profile. *)
Definition ownedBy (sp : option StudentProfile) (studentId : string) : Prop :=
  sp_id <$> sp = Some studentId.

#[global] Instance ownedBy_dec sp studentId : Decision (ownedBy sp studentId).
Proof. unfold ownedBy. apply _. Defined.

(** Modelled from the spec: the Prisma schema (with the referential actions
    of its relations) is not among the sources.  Section 4.3 of the
    specification says that deleting a User cascades to its role profile
    and all dependent Enrollments and AttendanceRecords; the handler's own
    comment reads "Delete user (cascades to profiles)".  Enrollment and
    attendance rows reference the student profile's [id], so the cascade
    goes through the profile that is attached to the user. *)
Definition cascadeDeleteUser (id : string) (d : DB) : DB :=
  let sp := studentProfiles d !! id in
  {| users := delete id (users d);
     studentProfiles := delete id (studentProfiles d);
     teacherProfiles := delete id (teacherProfiles d);
     adminProfiles := delete id (adminProfiles d);
     classes := classes d;
     qrCodes := qrCodes d;
     enrollments := filter (λ e, ¬ ownedBy sp e.1) (enrollments d);
     attendances :=
       filter (λ a, ¬ ownedBy sp (att_studentId a)) (attendances d) |}.

(** Modelled from the spec: the Prisma schema is not among the sources.
    Section 3 of the specification says of the one-row-per-(student, class,
    day) invariant that it is "enforced by the check-in protocol, not by a
    storage-level constraint"; [prisma.attendance.create] therefore always
    inserts. *)
Definition attendanceCreate (data : Attendance) (d : DB)
    : Settled Attendance * DB :=
  (Fulfilled data, set_attendances (attendances d ++ [data]) d).

(** One storage call against the tables: the settled promise and the
    tables afterwards.  A call rejects where Prisma raises: [delete] of a
    row that does not exist, [create] on a taken unique key. *)
Definition exec (q : Query) (d : DB) : Settled (answer q) * DB :=
  match q as q0 return Settled (answer q0) * DB with
  | UserFindUnique id =>
      (Fulfilled (withProfiles d id <$> users d !! id), d)
  | UserDelete id =>
      match users d !! id with
      | Some u => (Fulfilled u, cascadeDeleteUser id d)
      | None => (Rejected, d)
      end
  | TeacherProfileFindUnique userId =>
      (Fulfilled (teacherProfiles d !! userId), d)
  | ClassFindUnique id =>
      (Fulfilled (classes d !! id), d)
  | QRCodeFindUnique code =>
      (Fulfilled
         ((λ qr, (qr, classes d !! qr_classId qr)) <$> qrCodes d !! code), d)
  | QRCodeCreate data =>
      match qrCodes d !! qr_code data with
      | Some _ => (Rejected, d)
      | None =>
          (Fulfilled data, set_qrCodes (<[qr_code data := data]> (qrCodes d)) d)
      end
  | EnrollmentFindUnique studentId classId =>
      (Fulfilled
         (if decide ((studentId, classId) ∈ enrollments d)
          then Some {| enr_studentId := studentId; enr_classId := classId |}
          else None), d)
  | AttendanceFindFirst studentId classId gte lt =>
      (Fulfilled
         (List.find (attendanceMatches studentId classId gte lt) (attendances d)), d)
  | AttendanceFindMany studentId =>
      (Fulfilled
         (merge_sort dateDesc
            (filter (λ a, att_studentId a = studentId) (attendances d))), d)
  | AttendanceCreate data => attendanceCreate data d
  end.

(** ** Asynchronous handlers *)

(** The body of an [async] function, as the tree of its effects. *)
Inductive Async (A : Type) : Type :=
| Ret (a : A)                                   (* the function returns *)
| Throw                                         (* an exception propagates *)
| NewDate (k : Z → Async A)                     (* [new Date()], [Date.now()] *)
| MathRandom (k : string → Async A)
    (* [Math.random().toString(36).substr(2, n)]: the digits drawn *)
| Await (q : Query) (k : Settled (answer q) → Async A).
Arguments Ret {A} a.
Arguments Throw {A}.
Arguments NewDate {A} k.
Arguments MathRandom {A} k.
Arguments Await {A} q k.

Fixpoint bind {A B : Type} (p : Async A) (f : A → Async B) : Async B :=
  match p with
  | Ret a => f a
  | Throw => Throw
  | NewDate k => NewDate (λ t, bind (k t) f)
  | MathRandom k => MathRandom (λ s, bind (k s) f)
  | Await q k => Await q (λ r, bind (k r) f)
  end.

(** [try { body } catch (error) { handler }]. *)
Fixpoint tryCatch {A : Type} (body handler : Async A) : Async A :=
  match body with
  | Ret a => Ret a
  | Throw => handler
  | NewDate k => NewDate (λ t, tryCatch (k t) handler)
  | MathRandom k => MathRandom (λ s, tryCatch (k s) handler)
  | Await q k => Await q (λ r, tryCatch (k r) handler)
  end.

(** [await prisma.<model>.<op>(...)]: a rejected promise throws. *)
Definition await (q : Query) : Async (answer q) :=
  Await q (λ r, match r with Fulfilled a => Ret a | Rejected => Throw end).

Definition newDate : Async Z := NewDate Ret.

Definition mathRandom : Async string := MathRandom Ret.

Declare Scope async_scope.
Delimit Scope async_scope with async.
Notation "'let*' x ':=' p 'in' k" := (bind p (λ x, k))
  (at level 10, x name, p at level 100, k at level 200) : async_scope.
Local Open Scope async_scope.

(** ** The world a request runs in *)

(** The tables, the wall clock and the random source.  The [n]-th clock
    read of an execution returns [clock n], the [n]-th random draw
    [random n]; nothing is assumed about either. *)
Record World := {
  db : DB;
  clock : nat → Z;
  reads : nat;
  random : nat → string;
  draws : nat;
}.

Definition set_db (d : DB) (w : World) : World :=
  {| db := d; clock := clock w; reads := reads w;
     random := random w; draws := draws w |}.

Definition tick (w : World) : World :=
  {| db := db w; clock := clock w; reads := S (reads w);
     random := random w; draws := draws w |}.

Definition drawn (w : World) : World :=
  {| db := db w; clock := clock w; reads := reads w;
     random := random w; draws := S (draws w) |}.

(** Run to completion, with no other request in between.  [None] is an
    exception that nothing caught. *)
Fixpoint run {A : Type} (p : Async A) (w : World) : option A * World :=
  match p with
  | Ret a => (Some a, w)
  | Throw => (None, w)
  | NewDate k => run (k (clock w (reads w))) (tick w)
  | MathRandom k => run (k (random w (draws w))) (drawn w)
  | Await q k => let (r, d) := exec q (db w) in run (k r) (set_db d w)
  end.

(** The storage calls issued by a run, in order. *)
Fixpoint issued {A : Type} (p : Async A) (w : World) : list Query :=
  match p with
  | Ret _ | Throw => []
  | NewDate k => issued (k (clock w (reads w))) (tick w)
  | MathRandom k => issued (k (random w (draws w))) (drawn w)
  | Await q k => let (r, d) := exec q (db w) in q :: issued (k r) (set_db d w)
  end.

(** One turn of the event loop for a request: its synchronous code up to
    the next [await], and that storage call.  Between two turns of one
    request, other requests may take theirs. *)
Fixpoint turn {A : Type} (p : Async A) (w : World) : Async A * World :=
  match p with
  | Ret a => (Ret a, w)
  | Throw => (Throw, w)
  | NewDate k => turn (k (clock w (reads w))) (tick w)
  | MathRandom k => turn (k (random w (draws w))) (drawn w)
  | Await q k => let (r, d) := exec q (db w) in (k r, set_db d w)
  end.

(** Two requests in flight; the schedule says whose turn it is ([true]: the
    first). *)
Fixpoint interleave {A B : Type} (schedule : list bool)
    (p1 : Async A) (p2 : Async B) (w : World) : Async A * Async B * World :=
  match schedule with
  | [] => (p1, p2, w)
  | true :: rest => let (p1', w') := turn p1 w in interleave rest p1' p2 w'
  | false :: rest => let (p2', w') := turn p2 w in interleave rest p1 p2' w'
  end.

(** The outcome of a request that has no [await] left: [Some (Some a)] if
    it returned [a], [Some None] if it threw, [None] while a storage call is
    still ahead of it. *)
Fixpoint outcome {A : Type} (p : Async A) (w : World) : option (option A) :=
  match p with
  | Ret a => Some (Some a)
  | Throw => Some None
  | NewDate k => outcome (k (clock w (reads w))) (tick w)
  | MathRandom k => outcome (k (random w (draws w))) (drawn w)
  | Await _ _ => None
  end.

(** ** JavaScript numbers *)

(** A JavaScript number is an IEEE 754 binary64 value; the arithmetic is
    the standard library's executable specification of it. *)
Definition number : Type := spec_float.

Definition binary64_prec : Z := 53.
Definition binary64_emax : Z := 1024.

(** An integer as a number (exact below [2^53]). *)
Definition toNumber (z : Z) : number :=
  binary_normalize binary64_prec binary64_emax z 0 false.

Definition js_mul : number → number → number :=
  SFmul binary64_prec binary64_emax.

Definition js_div : number → number → number :=
  SFdiv binary64_prec binary64_emax.

(** [Math.round]: the integer closest to [x], the one closer to +∞ of two
    that are equally close; zeros, infinities and NaN are returned as they
    are, and a result of zero keeps the sign of [x]. *)
Definition Math_round (x : number) : number :=
  match x with
  | S754_finite s m e =>
      if 0 <=? e then x
      else
        let v := if s then Z.neg m else Z.pos m in
        let d := 2 ^ (- e) in
        let n := (2 * v + d) `div` (2 * d) in
        if n =? 0 then S754_zero s else toNumber n
  | _ => x
  end.

(** ** Requests and responses *)

Inductive Body :=
| ErrorJson (error message : string)
| ValidationJson (details : list string)
| MessageJson (message : string)
| QrJson (code : string) (expiresAt : Z)
| ScanJson (date : Z) (status : AttendanceStatus) (className : string)
| StudentJson (attendance : list Attendance)
    (total present absent : Z) (percentage : number).

Record Response := {
  status : nat;
  body : Body;
}.

Record Request := {
  req_authorization : option string;   (* req.headers['authorization'] *)
  body_qrCode : string;                (* req.body.qrCode, '' when absent *)
  body_classId : string;               (* req.body.classId, '' when absent *)
  params_id : string;                  (* req.params.id *)
  req_user : option AuthUser;          (* req.user *)
  req_errors : list string;            (* what validationResult(req) holds *)
}.

Definition set_user (u : AuthUser) (req : Request) : Request :=
  {| req_authorization := req_authorization req;
     body_qrCode := body_qrCode req; body_classId := body_classId req;
     params_id := params_id req; req_user := Some u;
     req_errors := req_errors req |}.

Definition add_error (field : string) (req : Request) : Request :=
  {| req_authorization := req_authorization req;
     body_qrCode := body_qrCode req; body_classId := body_classId req;
     params_id := params_id req; req_user := req_user req;
     req_errors := req_errors req ++ [field] |}.

(** [res.status(n).json(...)] with an [error] and a [message]. *)
Definition failure (n : nat) (error message : string) : Response :=
  {| status := n; body := ErrorJson error message |}.

(** A middleware either answers the request or calls [next()]. *)
Definition Middleware : Type := Request → Async (Response + Request).

Definition next (req : Request) : Async (Response + Request) := Ret (inr req).

Definition respond (r : Response) : Async (Response + Request) := Ret (inl r).

(** [router.<method>(path, [middlewares], handler)]. *)
Fixpoint route (middlewares : list Middleware)
    (handler : Request → Async Response) (req : Request) : Async Response :=
  match middlewares with
  | [] => handler req
  | m :: rest =>
      let* r := m req in
      match r with
      | inl response => Ret response
      | inr req' => route rest handler req'
      end
  end.

(** [s.split(sep)] for a one-character separator. *)
Fixpoint split (sep : ascii) (s : string) : list string :=
  match s with
  | EmptyString => [EmptyString]
  | String c rest =>
      if Ascii.eqb c sep then EmptyString :: split sep rest
      else
        match split sep rest with
        | [] => [String c EmptyString]
        | piece :: pieces => String c piece :: pieces
        end
  end.

(** [body(field).notEmpty()] of express-validator: records an error and
    lets the request through. *)
Definition notEmpty (field : string) (value : Request → string) : Middleware :=
  λ req, if String.eqb (value req) "" then next (add_error field req) else next req.

Definition validationError (req : Request) : Response :=
  {| status := 400; body := ValidationJson (req_errors req) |}.

(** [roles.includes(role)]. *)
Definition includes (roles : list Role) (role : Role) : bool :=
  existsb (λ r, bool_decide (r = role)) roles.

(** [authHeader && authHeader.split(' ')[1]]; a missing header, a header
    without a second piece and an empty second piece are all falsy and are
    all read as the empty string. *)
Definition bearerToken (req : Request) : string :=
  match req_authorization req with
  | Some authHeader => nth 1 (split " " authHeader) ""
  | None => ""
  end.

Section Backend.

(** The collaborators outside the sources: [jwt.verify] with the server's
    secret, which yields the [userId] of the token's payload or throws, and
    [Date.prototype.setHours(0, 0, 0, 0)] in the server's time zone. *)
Variable jwt_verify : string → option string.
Variable setHours0 : Z → Z.

(** *** middleware/auth.js *)

Definition authenticateToken : Middleware := λ req,
  tryCatch
    (let token := bearerToken req in
     if String.eqb token "" then
       respond (failure 401 "Access denied" "No token provided")
     else
       match jwt_verify token with
       | None => Throw
       | Some userId =>
           let* user := await (UserFindUnique userId) in
           match user with
           | None => respond (failure 401 "Access denied" "Invalid token")
           | Some u => next (set_user u req)
           end
       end)
    (respond (failure 401 "Access denied" "Invalid token")).

Definition authorizeRoles (roles : list Role) : Middleware := λ req,
  match req_user req with
  | None => respond (failure 401 "Access denied" "Authentication required")
  | Some u =>
      if negb (includes roles (au_role u))
      then respond (failure 403 "Access denied" "Insufficient permissions")
      else next req
  end.

Definition isOwnerOrAdmin (resourceUserId : Request → string) : Middleware :=
  λ req,
  match req_user req with
  | None => respond (failure 401 "Access denied" "Authentication required")
  | Some u =>
      if bool_decide (au_role u = ADMIN) then next req
      else if String.eqb (resourceUserId req) (au_id u) then next req
      else respond (failure 403 "Access denied"
                      "You can only access your own resources")
  end.

(** *** routes/attendance.js *)

(** The token string of [POST /generate-qr]:
    [`${classId}-${Date.now()}-${Math.random().toString(36).substr(2, 9)}`]. *)
Definition qrCodeData (classId : string) (now : Z) (suffix : string) : string :=
  classId +:+ "-" +:+ pretty now +:+ "-" +:+ suffix.

(** The handler of [POST /generate-qr].  The image from [QRCode.toDataURL]
    is a rendering of [code] by the external encoder and is not part of the
    modelled payload. *)
Definition generateQrHandler (req : Request) : Async Response :=
  tryCatch
    (if negb (bool_decide (req_errors req = [])) then Ret (validationError req)
     else
       let classId := body_classId req in
       let* classData := await (ClassFindUnique classId) in
       match classData with
       | None =>
           Ret (failure 404 "Class not found" "The specified class does not exist")
       | Some classData =>
           let create : Async Response :=
             let* now := newDate in
             let* suffix := mathRandom in
             let qrCodeData := qrCodeData classId now suffix in
             let* now' := newDate in
             let* qrCodeRecord :=
               await (QRCodeCreate
                        {| qr_classId := classId; qr_code := qrCodeData;
                           qr_expiresAt := now' + 15 * 60 * 1000 |}) in
             Ret {| status := 200;
                    body := QrJson qrCodeData (qr_expiresAt qrCodeRecord) |} in
           match req_user req with
           | None => Throw
           | Some user =>
               if bool_decide (au_role user = TEACHER) then
                 let* teacherProfile :=
                   await (TeacherProfileFindUnique (au_id user)) in
                 match teacherProfile with
                 | None =>
                     Ret (failure 403 "Access denied"
                            "You can only generate QR codes for your own classes")
                 | Some teacherProfile =>
                     if negb (String.eqb (tp_id teacherProfile)
                                (class_teacherId classData))
                     then Ret (failure 403 "Access denied"
                                 "You can only generate QR codes for your own classes")
                     else create
                 end
               else create
           end
       end)
    (Ret (failure 500 "QR generation failed" "Failed to generate QR code")).

Definition generateQr : Request → Async Response :=
  route [authenticateToken; authorizeRoles [TEACHER; ADMIN];
         notEmpty "classId" body_classId]
        generateQrHandler.

(** The four refusals of [POST /scan]; the specification calls them
    [NotFound], [Expired], [NotEnrolled] and [AlreadyMarked]. *)
Definition invalidQrCode : Response :=
  failure 400 "Invalid QR code" "The QR code is not valid".

Definition qrCodeExpired : Response :=
  failure 400 "QR code expired" "The QR code has expired".

Definition notEnrolled : Response :=
  failure 403 "Access denied" "You are not enrolled in this class".

Definition alreadyMarked : Response :=
  failure 400 "Attendance already marked"
    "You have already marked attendance for this class today".

Definition markingFailed : Response :=
  failure 500 "Attendance marking failed" "Failed to mark attendance".

Definition DAY : Z := 24 * 60 * 60 * 1000.

(** The [data] of the [prisma.attendance.create] in [POST /scan]. *)
Definition scanned (student : StudentProfile) (classId : string) (date : Z)
    (qrCode : string) : Attendance :=
  {| att_studentId := sp_id student; att_classId := classId; att_date := date;
     att_status := PRESENT; att_qrCode := Some qrCode |}.

(** The handler of [POST /scan]. *)
Definition scanHandler (req : Request) : Async Response :=
  tryCatch
    (if negb (bool_decide (req_errors req = [])) then Ret (validationError req)
     else
       let qrCode := body_qrCode req in
       let* qrCodeRecord := await (QRCodeFindUnique qrCode) in
       match qrCodeRecord with
       | None => Ret invalidQrCode
       | Some (qrCodeRecord, class) =>
           let* now := newDate in
           if now >? qr_expiresAt qrCodeRecord then Ret qrCodeExpired
           else
             match req_user req ≫= studentProfile with
             | None => Throw          (* req.user.studentProfile.id *)
             | Some student =>
                 let* enrollment :=
                   await (EnrollmentFindUnique (sp_id student)
                            (qr_classId qrCodeRecord)) in
                 match enrollment with
                 | None => Ret notEnrolled
                 | Some _ =>
                     let* today := newDate in
                     let today := setHours0 today in
                     let* existingAttendance :=
                       await (AttendanceFindFirst (sp_id student)
                                (qr_classId qrCodeRecord) today (today + DAY)) in
                     match existingAttendance with
                     | Some _ => Ret alreadyMarked
                     | None =>
                         let* date := newDate in
                         let* attendance :=
                           await (AttendanceCreate
                                    (scanned student (qr_classId qrCodeRecord)
                                       date qrCode)) in
                         match class with
                         | None => Throw      (* qrCodeRecord.class.name *)
                         | Some class =>
                             Ret {| status := 200;
                                    body := ScanJson (att_date attendance)
                                              (att_status attendance)
                                              (class_name class) |}
                         end
                     end
                 end
             end
       end)
    (Ret markingFailed).

Definition scan : Request → Async Response :=
  route [authenticateToken; authorizeRoles [STUDENT];
         notEmpty "qrCode" body_qrCode]
        scanHandler.

(** The summary of [GET /student]. *)
Definition totalClasses (attendances : list Attendance) : Z :=
  Z.of_nat (length attendances).

Definition presentClasses (attendances : list Attendance) : Z :=
  Z.of_nat (length (filter (λ a, att_status a = PRESENT) attendances)).

Definition attendancePercentage (attendances : list Attendance) : number :=
  if totalClasses attendances >? 0
  then js_mul (js_div (toNumber (presentClasses attendances))
                      (toNumber (totalClasses attendances)))
              (toNumber 100)
  else toNumber 0.

(** [Math.round(attendancePercentage * 100) / 100]. *)
Definition percentage (attendances : list Attendance) : number :=
  js_div (Math_round (js_mul (attendancePercentage attendances) (toNumber 100)))
         (toNumber 100).

Definition studentAttendanceHandler (req : Request) : Async Response :=
  tryCatch
    (match req_user req ≫= studentProfile with
     | None => Throw                  (* req.user.studentProfile.id *)
     | Some student =>
         let* attendances := await (AttendanceFindMany (sp_id student)) in
         Ret {| status := 200;
                body := StudentJson attendances
                          (totalClasses attendances)
                          (presentClasses attendances)
                          (totalClasses attendances - presentClasses attendances)
                          (percentage attendances) |}
     end)
    (Ret (failure 500 "Attendance retrieval failed"
            "Failed to retrieve student attendance")).

Definition studentAttendance : Request → Async Response :=
  route [authenticateToken; authorizeRoles [STUDENT]] studentAttendanceHandler.

(** *** routes/users.js *)

(** The handler of [DELETE /:id]. *)
Definition deleteUserHandler (req : Request) : Async Response :=
  tryCatch
    (let id := params_id req in
     let* user := await (UserFindUnique id) in
     match user with
     | None =>
         Ret (failure 404 "User not found" "The specified user does not exist")
     | Some _ =>
         let* _ := await (UserDelete id) in
         Ret {| status := 200; body := MessageJson "User deleted successfully" |}
     end)
    (Ret (failure 500 "User deletion failed" "Failed to delete user")).

Definition deleteUser : Request → Async Response :=
  route [authenticateToken; authorizeRoles [ADMIN]] deleteUserHandler.

(** *** Vocabulary of the statements *)

(** The user whom [authenticateToken] attaches to the request, if any. *)
Definition authenticated (req : Request) (d : DB) : option AuthUser :=
  if String.eqb (bearerToken req) "" then None
  else jwt_verify (bearerToken req)
         ≫= λ userId, withProfiles d userId <$> users d !! userId.

(** A scan as Express hands it to the route, sent by a student: no
    validation error recorded yet, a token string in the body, and a bearer
    token that signs in the user [u], whose role is STUDENT. *)
Definition studentRequest (req : Request) (d : DB) (u : AuthUser) : Prop :=
  req_errors req = [] ∧ body_qrCode req ≠ "" ∧
  authenticated req d = Some u ∧ au_role u = STUDENT.

End Backend.

(** An attendance row of the student for the class, dated on the local day
    that starts at [today]. *)
Definition markedToday (d : DB) (studentId classId : string) (today : Z)
    : Prop :=
  Exists (λ a, att_studentId a = studentId ∧ att_classId a = classId
               ∧ today <= att_date a < today + DAY) (attendances d).

#[global] Instance markedToday_dec d studentId classId today :
  Decision (markedToday d studentId classId today).
Proof. unfold markedToday. apply _. Defined.

(** Whether [code] starts with the class id and the issuing instant. *)
Definition timestampConcatenation (classId : string) (now : Z) (code : string)
    : bool :=
  String.prefix (classId +:+ "-" +:+ pretty now +:+ "-") code.

(** The percentage as the summary's description reads it: [present / total
    * 100] rounded to two decimal places, computed in exact integer
    arithmetic on hundredths of a percent (ties upwards, as [Math.round]
    has them) and then taken as a number. *)
Definition roundedPercentage (present total : Z) : number :=
  js_div (toNumber ((2 * 10000 * present + total) `div` (2 * total)))
         (toNumber 100).

(** Two scans in flight at once.  Each takes four turns (the user lookup of
    the gate, the token lookup, the enrollment lookup, the search for a row
    of today) before either takes its fifth, the insertion. *)
Definition raceSchedule : list bool :=
  [true; true; true; true; false; false; false; false; true; false].

(** ** A school, for the worked examples *)

Module Scenario.

Definition utc (t : Z) : Z := t - t `mod` DAY.

(** Tokens are ["jwt:"] followed by the user id. *)
Definition jwt (token : string) : option string :=
  match token with
  | String "j" (String "w" (String "t" (String ":" userId))) => Some userId
  | _ => None
  end.

Definition school : DB :=
  {| users :=
       list_to_map
         [("u-admin", {| user_name := "Admin User"; user_role := ADMIN |});
          ("u-john", {| user_name := "John Smith"; user_role := TEACHER |});
          ("u-alice", {| user_name := "Alice Wilson"; user_role := STUDENT |});
          ("u-bob", {| user_name := "Bob Miller"; user_role := STUDENT |});
          ("u-carol", {| user_name := "Carol Garcia"; user_role := STUDENT |})];
     studentProfiles :=
       list_to_map
         [("u-alice", {| sp_id := "s-alice"; sp_userId := "u-alice" |});
          ("u-bob", {| sp_id := "s-bob"; sp_userId := "u-bob" |});
          ("u-carol", {| sp_id := "s-carol"; sp_userId := "u-carol" |})];
     teacherProfiles :=
       list_to_map [("u-john", {| tp_id := "t-john"; tp_userId := "u-john" |})];
     adminProfiles :=
       list_to_map [("u-admin", {| ap_id := "a-admin"; ap_userId := "u-admin" |})];
     classes :=
       list_to_map
         [("c-math", {| class_name := "Mathematics 10A";
                        class_teacherId := "t-john" |})];
     qrCodes := ∅;
     enrollments := {[ ("s-alice", "c-math"); ("s-bob", "c-math") ]};
     attendances := [] |}.

Definition MINUTE : Z := 60 * 1000.

(** A world whose clock advances by a minute at every read. *)
Definition world (start : Z) (d : DB) : World :=
  {| db := d; clock := λ n, start + MINUTE * Z.of_nat n; reads := 0;
     random := λ _, "k3j9x0q2z"; draws := 0 |}.

(** The same tables, with a clock that starts afresh at [start]. *)
Definition at_time (start : Z) (w : World) : World := world start (db w).

Definition request (userId qrCode classId id : string) : Request :=
  {| req_authorization := Some ("Bearer jwt:" +:+ userId);
     body_qrCode := qrCode; body_classId := classId; params_id := id;
     req_user := None; req_errors := [] |}.

(** 2023-11-14 22:13:20 UTC, and the midnight that follows. *)
Definition T : Z := 1700000000000.
Definition MIDNIGHT : Z := 1700006400000.

(** The teacher shows a code for the class at [T]. *)
Definition issue : Request := request "u-john" "" "c-math" "".
Definition code : string := "c-math-1700000000000-k3j9x0q2z".
Definition classroom : World := snd (run (generateQr jwt issue) (world T school)).

Definition token : QRCode :=
  {| qr_classId := "c-math"; qr_code := code; qr_expiresAt := T + 16 * MINUTE |}.

Definition alice : StudentProfile := {| sp_id := "s-alice"; sp_userId := "u-alice" |}.
Definition bob : StudentProfile := {| sp_id := "s-bob"; sp_userId := "u-bob" |}.
Definition carol : StudentProfile := {| sp_id := "s-carol"; sp_userId := "u-carol" |}.

Definition signedIn (userId : string) (role : Role)
    (student : option StudentProfile) (teacher : option TeacherProfile)
    (admin : option AdminProfile) : AuthUser :=
  {| au_id := userId; au_role := role; studentProfile := student;
     teacherProfile := teacher; adminProfile := admin |}.

Definition aliceUser : AuthUser := signedIn "u-alice" STUDENT (Some alice) None None.
Definition bobUser : AuthUser := signedIn "u-bob" STUDENT (Some bob) None None.
Definition carolUser : AuthUser := signedIn "u-carol" STUDENT (Some carol) None None.
Definition johnUser : AuthUser :=
  signedIn "u-john" TEACHER None
    (Some {| tp_id := "t-john"; tp_userId := "u-john" |}) None.
Definition adminUser : AuthUser :=
  signedIn "u-admin" ADMIN None None
    (Some {| ap_id := "a-admin"; ap_userId := "u-admin" |}).

Definition aliceScans : Request := request "u-alice" code "" "".
Definition bobScans : Request := request "u-bob" code "" "".
Definition carolScans : Request := request "u-carol" code "" "".
Definition johnScans : Request := request "u-john" code "" "".

(** The class after Alice has checked in. *)
Definition aliceMarked : World := snd (run (scan jwt utc aliceScans) classroom).

(** A term of 160 lessons of which Alice attended 23. *)
Definition lesson (status : AttendanceStatus) : Attendance :=
  {| att_studentId := "s-alice"; att_classId := "c-math"; att_date := T;
     att_status := status; att_qrCode := None |}.

Definition term : list Attendance :=
  repeat (lesson PRESENT) 23 ++ repeat (lesson ABSENT) 137.

End Scenario.

(** ** Further vocabulary *)

(** A string without a space. *)
Fixpoint spaceFree (s : string) : bool :=
  match s with
  | EmptyString => true
  | String c rest => negb (Ascii.eqb c " ") && spaceFree rest
  end.

(** A request to [POST /generate-qr] as Express hands it to the route: no
    validation error recorded yet, a class id in the body, and a bearer
    token that signs in the user [u]. *)
Definition issuerRequest (jwt_verify : string → option string)
    (req : Request) (d : DB) (u : AuthUser) : Prop :=
  req_errors req = [] ∧ body_classId req ≠ ""
  ∧ authenticated jwt_verify req d = Some u.

(** Whether the signed-in user is in charge of the class, as the routes
    that show a code for a class or report on it check: an ADMIN is, of
    every class; a TEACHER is, of the classes whose [teacherId] is the id of
    the teacher profile stored for the user. *)
Definition inCharge (d : DB) (u : AuthUser) (classData : Class) : Prop :=
  match au_role u with
  | ADMIN => True
  | TEACHER =>
      match teacherProfiles d !! au_id u with
      | Some teacherProfile => tp_id teacherProfile = class_teacherId classData
      | None => False
      end
  | STUDENT => False
  end.

#[global] Instance inCharge_dec d u classData : Decision (inCharge d u classData).
Proof.
  unfold inCharge. destruct (au_role u); [apply _ | | apply _].
  destruct (teacherProfiles d !! au_id u); apply _.
Defined.

(** ** The class registry and the class report *)

(** The routes of [routes/classes.js] that enrol and remove a student, and
    [GET /class/:classId] of [routes/attendance.js], use storage calls that
    are not among [Query].  Their handlers are written directly in the
    monad into which [run] interprets [Async]: a function from the world to
    an outcome ([None]: an exception) and the world afterwards. *)
Definition Run (A : Type) : Type := World → option A * World.

Definition ret {A : Type} (a : A) : Run A := λ w, (Some a, w).

Definition raise {A : Type} : Run A := λ w, (None, w).

Definition andThen {A B : Type} (m : Run A) (f : A → Run B) : Run B :=
  λ w, match m w with
       | (Some a, w') => f a w'
       | (None, w') => (None, w')
       end.

(** [try { body } catch (error) { handler }]. *)
Definition orElse {A : Type} (body handler : Run A) : Run A :=
  λ w, match body w with
       | (Some a, w') => (Some a, w')
       | (None, w') => handler w'
       end.

(** An awaited storage call, given as its effect on the tables. *)
Definition stored {X : Type} (call : DB → Settled X * DB) : Run X :=
  λ w, let (r, d) := call (db w) in
       (match r with Fulfilled x => Some x | Rejected => None end, set_db d w).

(** [new Date()]. *)
Definition clockRead : Run Z := λ w, (Some (clock w (reads w)), tick w).

Declare Scope run_scope.
Delimit Scope run_scope with run.
Notation "'let+' x ':=' m 'in' k" := (andThen m (λ x, k))
  (at level 10, x name, m at level 100, k at level 200) : run_scope.

Definition set_enrollments (s : gset (string * string)) (d : DB) : DB :=
  {| users := users d; studentProfiles := studentProfiles d;
     teacherProfiles := teacherProfiles d; adminProfiles := adminProfiles d;
     classes := classes d; qrCodes := qrCodes d;
     enrollments := s; attendances := attendances d |}.

(** [prisma.studentProfile.findUnique({ where: { id } })]: the profile
    table is keyed by [userId], so the profile with the given [id] is
    searched among its rows. *)
Definition studentProfileFindUnique (id : string) (d : DB)
    : Settled (option StudentProfile) * DB :=
  (Fulfilled
     (List.find (λ sp, bool_decide (sp_id sp = id))
        (map_to_list (studentProfiles d)).*2), d).

(** [prisma.enrollment.create]: the compound key [studentId_classId] is
    unique (the sources look enrollments up by it with [findUnique]), so a
    second row for a pair is refused. *)
Definition enrollmentCreate (studentId classId : string) (d : DB)
    : Settled Enrollment * DB :=
  if decide ((studentId, classId) ∈ enrollments d) then (Rejected, d)
  else (Fulfilled {| enr_studentId := studentId; enr_classId := classId |},
        set_enrollments ({[ (studentId, classId) ]} ∪ enrollments d) d).

(** [prisma.enrollment.delete]: rejects when there is no such row. *)
Definition enrollmentDelete (studentId classId : string) (d : DB)
    : Settled Enrollment * DB :=
  if decide ((studentId, classId) ∈ enrollments d)
  then (Fulfilled {| enr_studentId := studentId; enr_classId := classId |},
        set_enrollments (enrollments d ∖ {[ (studentId, classId) ]}) d)
  else (Rejected, d).

(** [prisma.enrollment.findMany({ where: { classId } })]: the students of
    the class.  The call has no [orderBy], and the order in which the
    storage returns the rows is not modelled: they are listed in the order
    of the set's elements, and no statement below depends on it. *)
Definition enrollmentFindMany (classId : string) (d : DB)
    : Settled (list string) * DB :=
  (Fulfilled (elements (filter (λ e, e.2 = classId) (enrollments d))).*1, d).

(** [prisma.attendance.findMany({ where: { classId, date: { gte, lt } } })]. *)
Definition attendanceFindManyOn (classId : string) (gte lt : Z) (d : DB)
    : Settled (list Attendance) * DB :=
  (Fulfilled
     (filter (λ a, att_classId a = classId ∧ gte <= att_date a < lt)
        (attendances d)), d).

(** What these routes answer: one of the responses above, the enrollment
    created (201), or the report on a class. *)
Inductive Reply :=
| Plain (response : Response)
| Created (enrollment : Enrollment)
| ClassReport (date : Z) (attendance : list (string * AttendanceStatus))
    (total present absent late : Z).

(** The middlewares of a route, up to its handler. *)
Fixpoint through (middlewares : list Middleware) (req : Request)
    : Async (Response + Request) :=
  match middlewares with
  | [] => next req
  | m :: rest =>
      let* r := m req in
      match r with
      | inl response => respond response
      | inr req' => through rest req'
      end
  end.

Definition guarded (middlewares : list Middleware)
    (handler : Request → Run Reply) (req : Request) : Run Reply :=
  (let+ r := run (through middlewares req) in
   match r with
   | inl response => ret (Plain response)
   | inr req' => handler req'
   end)%run.

(** [attendances.find(a => a.studentId === enrollment.studentId)] and the
    status reported for the student. *)
Definition statusOf (attendances : list Attendance) (studentId : string)
    : AttendanceStatus :=
  match List.find (λ a, bool_decide (att_studentId a = studentId)) attendances with
  | Some attendance => att_status attendance
  | None => ABSENT
  end.

(** [attendanceSummary.filter(a => a.status === status).length]. *)
Definition countStatus (status : AttendanceStatus)
    (summary : list (string * AttendanceStatus)) : Z :=
  Z.of_nat (length (filter (λ entry, entry.2 = status) summary)).

Section Registry.

Variable jwt_verify : string → option string.
Variable setHours0 : Z → Z.

(** [new Date(date)] on the query string: the instant it denotes, or
    nothing for an invalid date. *)
Variable parseDate : string → option Z.

Local Open Scope run_scope.

(** *** routes/classes.js *)

(** The handler of [POST /:id/enroll]; [studentId] is [req.body.studentId]
    and the class id is [req.params.id]. *)
Definition enrollHandler (studentId : string) (req : Request) : Run Reply :=
  orElse
    (if negb (bool_decide (req_errors req = [])) then
       ret (Plain (validationError req))
     else
       let classId := params_id req in
       let+ classData := run (await (ClassFindUnique classId)) in
       match classData with
       | None =>
           ret (Plain (failure 404 "Class not found"
                         "The specified class does not exist"))
       | Some _ =>
           let+ student := stored (studentProfileFindUnique studentId) in
           match student with
           | None =>
               ret (Plain (failure 404 "Student not found"
                             "The specified student does not exist"))
           | Some _ =>
               let+ existingEnrollment :=
                 run (await (EnrollmentFindUnique studentId classId)) in
               match existingEnrollment with
               | Some _ =>
                   ret (Plain (failure 400 "Already enrolled"
                                 "Student is already enrolled in this class"))
               | None =>
                   let+ enrollment := stored (enrollmentCreate studentId classId) in
                   ret (Created enrollment)
               end
           end
       end)
    (ret (Plain (failure 500 "Enrollment failed" "Failed to enroll student"))).

Definition enroll (studentId : string) : Request → Run Reply :=
  guarded [authenticateToken jwt_verify; authorizeRoles [ADMIN; TEACHER];
           notEmpty "studentId" (λ _, studentId)]
          (enrollHandler studentId).

(** The handler of [DELETE /:id/enroll/:studentId]; [studentId] is
    [req.params.studentId] and the class id is [req.params.id]. *)
Definition unenrollHandler (studentId : string) (req : Request) : Run Reply :=
  orElse
    (let classId := params_id req in
     let+ _ := stored (enrollmentDelete studentId classId) in
     ret (Plain {| status := 200;
                   body := MessageJson "Student removed from class successfully" |}))
    (ret (Plain (failure 500 "Enrollment removal failed"
                   "Failed to remove student from class"))).

Definition unenroll (studentId : string) : Request → Run Reply :=
  guarded [authenticateToken jwt_verify; authorizeRoles [ADMIN; TEACHER]]
          (unenrollHandler studentId).

(** *** routes/attendance.js, the report on a class *)

(** The handler of [GET /class/:classId]; [classId] is
    [req.params.classId] and [date] is [req.query.date], absent or given.
    An invalid date is refused by the storage call it is passed to. *)
Definition classAttendanceHandler (classId : string) (date : option string)
    (req : Request) : Run Reply :=
  orElse
    (let+ classData := run (await (ClassFindUnique classId)) in
     match classData with
     | None =>
         ret (Plain (failure 404 "Class not found"
                       "The specified class does not exist"))
     | Some classData =>
         let report : Run Reply :=
           let+ targetDate :=
             match date with
             | None | Some "" => let+ now := clockRead in ret (Some now)
             | Some date => ret (parseDate date)
             end in
           match setHours0 <$> targetDate with
           | None => raise
           | Some targetDate =>
               let+ attendances :=
                 stored (attendanceFindManyOn classId targetDate (targetDate + DAY)) in
               let+ enrollments := stored (enrollmentFindMany classId) in
               let attendanceSummary :=
                 (λ studentId, (studentId, statusOf attendances studentId))
                   <$> enrollments in
               ret (ClassReport targetDate attendanceSummary
                      (Z.of_nat (length attendanceSummary))
                      (countStatus PRESENT attendanceSummary)
                      (countStatus ABSENT attendanceSummary)
                      (countStatus LATE attendanceSummary))
           end in
         match req_user req with
         | None => raise
         | Some user =>
             if bool_decide (au_role user = TEACHER) then
               let+ teacherProfile :=
                 run (await (TeacherProfileFindUnique (au_id user))) in
               match teacherProfile with
               | None =>
                   ret (Plain (failure 403 "Access denied"
                                 "You can only view attendance for your own classes"))
               | Some teacherProfile =>
                   if negb (String.eqb (tp_id teacherProfile)
                              (class_teacherId classData))
                   then ret (Plain (failure 403 "Access denied"
                                      "You can only view attendance for your own classes"))
                   else report
               end
             else report
         end
     end)
    (ret (Plain (failure 500 "Attendance retrieval failed"
                   "Failed to retrieve class attendance"))).

Definition classAttendance (classId : string) (date : option string)
    : Request → Run Reply :=
  guarded [authenticateToken jwt_verify; authorizeRoles [TEACHER; ADMIN]]
          (classAttendanceHandler classId date).

End Registry.

(** The day a report is about, when it can be determined: today, by the
    clock, when the query has no date; the given date otherwise; in both
    cases taken back to the local midnight. *)
Definition reportDay (setHours0 : Z → Z) (parseDate : string → option Z)
    (date : option string) (w : World) : option Z :=
  setHours0 <$>
    match date with
    | None | Some "" => Some (clock w (reads w))
    | Some date => parseDate date
    end.

(** A request by a teacher or an administrator, as Express hands it to a
    route: no validation error recorded yet and a bearer token that signs
    in the user [u], whose role is not STUDENT. *)
Definition staffRequest (jwt_verify : string → option string)
    (req : Request) (d : DB) (u : AuthUser) : Prop :=
  req_errors req = [] ∧ authenticated jwt_verify req d = Some u
  ∧ au_role u ≠ STUDENT.

(** There is a student profile with this id. *)
Definition hasStudent (d : DB) (id : string) : Prop :=
  ∃ userId student,
    studentProfiles d !! userId = Some student ∧ sp_id student = id.

(** ** The school, continued *)

Module Campus.
Import Scenario.

(** The school with a second teacher, Mary, who teaches art, and with Dave,
    a student to whose user no profile is attached. *)
Definition campus : DB :=
  {| users :=
       <["u-mary" := {| user_name := "Mary Jones"; user_role := TEACHER |}]>
         (<["u-dave" := {| user_name := "Dave Brown"; user_role := STUDENT |}]>
            (users school));
     studentProfiles := studentProfiles school;
     teacherProfiles :=
       <["u-mary" := {| tp_id := "t-mary"; tp_userId := "u-mary" |}]>
         (teacherProfiles school);
     adminProfiles := adminProfiles school;
     classes :=
       <["c-art" := {| class_name := "Art 10A"; class_teacherId := "t-mary" |}]>
         (classes school);
     qrCodes := ∅;
     enrollments := enrollments school;
     attendances := [] |}.

Definition mathClass : Class :=
  {| class_name := "Mathematics 10A"; class_teacherId := "t-john" |}.

Definition maryUser : AuthUser :=
  signedIn "u-mary" TEACHER None
    (Some {| tp_id := "t-mary"; tp_userId := "u-mary" |}) None.
Definition daveUser : AuthUser := signedIn "u-dave" STUDENT None None None.

(** A request with the bearer token of the user, about the class. *)
Definition about (userId classId : string) : Request :=
  request userId "" classId classId.

(** A request without an [Authorization] header. *)
Definition anonymous : Request :=
  {| req_authorization := None; body_qrCode := code; body_classId := "c-math";
     params_id := "c-math"; req_user := None; req_errors := [] |}.

(** The only date the example needs: 2023-11-14, at midnight UTC. *)
Definition isoDate (date : string) : option Z :=
  if String.eqb date "2023-11-14" then Some (utc T) else None.

(** A world whose clock stands still at [T], and the same after the
    teacher has shown a code in it. *)
Definition frozen : World :=
  {| db := school; clock := λ _, T; reads := 0;
     random := λ _, "k3j9x0q2z"; draws := 0 |}.
Definition reissued : World := snd (run (generateQr jwt issue) frozen).

(** The classroom after the teacher has enrolled Carol, and after he has
    removed Alice. *)
Definition carolEnrolled : World :=
  snd (enroll jwt "s-carol" (about "u-john" "c-math") classroom).
Definition aliceRemoved : World :=
  snd (unenroll jwt "s-alice" (about "u-john" "c-math") classroom).

(** The classroom with the campus behind it. *)
Definition artRoom : World := world T campus.

(** The same after the teacher has shown a code for the mathematics class,
    and Dave scanning that code. *)
Definition artRoomWithCode : World := snd (run (generateQr jwt issue) artRoom).
Definition daveScans : Request := request "u-dave" code "" "".

End Campus.

(** * Properties *)

(** ** The semantics of [Async] *)

Section Semantics.
Context {A B : Type}.

Lemma run_bind (p : Async A) (f : A → Async B) w :
  run (bind p f) w =
    match run p w with
    | (Some a, w') => run (f a) w'
    | (None, w') => (None, w')
    end.
Proof.
  revert w; induction p as [a| |k IH|k IH|q k IH]; intros w; cbn; auto.
  destruct (exec q (db w)) as [r d]. apply IH.
Qed.

Lemma run_tryCatch (p h : Async A) w :
  run (tryCatch p h) w =
    match run p w with
    | (Some a, w') => (Some a, w')
    | (None, w') => run h w'
    end.
Proof.
  revert w; induction p as [a| |k IH|k IH|q k IH]; intros w; cbn; auto.
  destruct (exec q (db w)) as [r d]. apply IH.
Qed.

Lemma issued_bind (p : Async A) (f : A → Async B) w :
  issued (bind p f) w =
    issued p w ++
    match run p w with
    | (Some a, w') => issued (f a) w'
    | (None, _) => []
    end.
Proof.
  revert w; induction p as [a| |k IH|k IH|q k IH]; intros w; cbn; auto.
  destruct (exec q (db w)) as [r d]. cbn. f_equal. apply IH.
Qed.

(** A handler whose [catch] answers never lets an exception out. *)
Lemma run_tryCatch_answers (p : Async A) (a : A) w :
  is_Some (run (tryCatch p (Ret a)) w).1.
Proof.
  rewrite run_tryCatch. destruct (run p w) as [[a'|] w']; cbn; eauto.
Qed.

(** A turn is the first leg of a run. *)
Lemma run_turn (p : Async A) w :
  run p w = run (turn p w).1 (turn p w).2.
Proof.
  revert w; induction p as [a| |k IH|k IH|q k IH]; intros w; cbn; auto.
  destruct (exec q (db w)) as [r d]. reflexivity.
Qed.

Lemma outcome_run (p : Async A) w r :
  outcome p w = Some r → (run p w).1 = r.
Proof.
  revert w; induction p as [a| |k IH|k IH|q k IH]; intros w; cbn;
    try congruence; auto.
Qed.

(** A request that is never interrupted runs to completion as [run] says. *)
Lemma interleave_alone (schedule : list bool) (p1 : Async A) (p2 : Async B) w :
  Forall (λ b, b = true) schedule →
  let '(p1', p2', w') := interleave schedule p1 p2 w in
  p2' = p2 ∧ run p1' w' = run p1 w.
Proof.
  intros Hall; revert p1 w; induction Hall as [|b rest -> _ IH]; intros p1 w; cbn.
  - auto.
  - rewrite (run_turn p1 w). destruct (turn p1 w) as [p1' w']. apply IH.
Qed.

End Semantics.

Lemma pair_fst_snd {X Y : Type} (p : X * Y) (x : X) (y : Y) :
  p.1 = x → p.2 = y → p = (x, y).
Proof. destruct p; cbn; congruence. Qed.

Lemma set_db_id w : set_db (db w) w = w.
Proof. destruct w; reflexivity. Qed.

Lemma prefix_append (s t : string) : String.prefix s (s +:+ t) = true.
Proof.
  induction s as [|c s IH].
  - destruct t; reflexivity.
  - change (String.prefix (String c s) (String c (s +:+ t)) = true). cbn.
    destruct (ascii_dec c c); [exact IH | congruence].
Qed.

Lemma append_assoc (s t u : string) : (s +:+ t) +:+ u = s +:+ (t +:+ u).
Proof.
  induction s as [|c s IH]; [reflexivity|].
  change (String c ((s +:+ t) +:+ u) = String c (s +:+ (t +:+ u))).
  by rewrite IH.
Qed.

Lemma find_app {X : Type} (f : X → bool) (l1 l2 : list X) :
  List.find f (l1 ++ l2) =
    match List.find f l1 with
    | Some x => Some x
    | None => List.find f l2
    end.
Proof.
  induction l1 as [|x l1 IH]; cbn; [reflexivity|].
  destruct (f x); [reflexivity | exact IH].
Qed.

(** The [findFirst] of [POST /scan] finds a row exactly when the student is
    marked for the day. *)
Lemma find_markedToday d studentId classId today :
  is_Some (List.find (attendanceMatches studentId classId today (today + DAY))
             (attendances d))
  ↔ markedToday d studentId classId today.
Proof.
  unfold markedToday. induction (attendances d) as [|a l IH]; cbn.
  - split; [intros [? [=]] | intros H; inversion H].
  - rewrite Exists_cons, <- IH.
    assert (attendanceMatches studentId classId today (today + DAY) a = true
            ↔ att_studentId a = studentId ∧ att_classId a = classId
              ∧ today <= att_date a < today + DAY) as Hm.
    { unfold attendanceMatches.
      rewrite !andb_true_iff, !bool_decide_eq_true, Z.leb_le, Z.ltb_lt. tauto. }
    destruct (attendanceMatches studentId classId today (today + DAY) a).
    + split; [intros _; left; by apply Hm | eauto].
    + split; [auto | intros [H|H]; [apply Hm in H; discriminate | exact H]].
Qed.

Lemma find_not_markedToday d studentId classId today :
  ¬ markedToday d studentId classId today →
  List.find (attendanceMatches studentId classId today (today + DAY))
    (attendances d) = None.
Proof.
  intros H. destruct (List.find _ _) eqn:E; [|reflexivity].
  exfalso; apply H, find_markedToday. rewrite E; eauto.
Qed.

(** ** The authorization gate *)

Section Gate.
Variable jwt_verify : string → option string.

Lemma run_route_cons (m : Middleware) rest handler req w :
  run (route (m :: rest) handler req) w =
    match run (m req) w with
    | (Some (inl response), w') => (Some response, w')
    | (Some (inr req'), w') => run (route rest handler req') w'
    | (None, w') => (None, w')
    end.
Proof.
  cbn [route]. rewrite run_bind.
  destruct (run (m req) w) as [[[response|req']|] w']; reflexivity.
Qed.

Lemma issued_route_cons (m : Middleware) rest handler req w :
  issued (route (m :: rest) handler req) w =
    issued (m req) w ++
    match run (m req) w with
    | (Some (inr req'), w') => issued (route rest handler req') w'
    | _ => []
    end.
Proof.
  cbn [route]. rewrite issued_bind.
  destruct (run (m req) w) as [[[response|req']|] w']; reflexivity.
Qed.

Lemma run_authenticateToken req w :
  run (authenticateToken jwt_verify req) w =
    (Some match authenticated jwt_verify req (db w) with
          | Some u => inr (set_user u req)
          | None =>
              inl (failure 401 "Access denied"
                     (if String.eqb (bearerToken req) "" then "No token provided"
                      else "Invalid token"))
          end, w).
Proof.
  unfold authenticateToken, authenticated.
  destruct w as [d c n rnd m]; cbn.
  destruct (String.eqb (bearerToken req) ""); cbn; [reflexivity|].
  destruct (jwt_verify (bearerToken req)) as [userId|]; cbn; [|reflexivity].
  destruct (users d !! userId) as [u|]; cbn; reflexivity.
Qed.

Lemma issued_authenticateToken req w u :
  authenticated jwt_verify req (db w) = Some u →
  issued (authenticateToken jwt_verify req) w = [UserFindUnique (au_id u)].
Proof.
  unfold authenticateToken, authenticated.
  destruct w as [d c n rnd m]; cbn.
  destruct (String.eqb (bearerToken req) ""); cbn; [discriminate|].
  destruct (jwt_verify (bearerToken req)) as [userId|]; cbn; [|discriminate].
  destruct (users d !! userId) as [usr|]; cbn; [|discriminate].
  by intros [= <-].
Qed.

Lemma run_authorizeRoles roles req w u :
  req_user req = Some u →
  run (authorizeRoles roles req) w =
    (Some (if includes roles (au_role u) then inr req
           else inl (failure 403 "Access denied" "Insufficient permissions")), w).
Proof.
  intros Hu. unfold authorizeRoles. rewrite Hu.
  destruct (includes roles (au_role u)); reflexivity.
Qed.

(** Every route of the sources opens with the same two middlewares. *)
Lemma run_gate roles rest handler req w :
  run (route (authenticateToken jwt_verify :: authorizeRoles roles :: rest)
         handler req) w =
    match authenticated jwt_verify req (db w) with
    | None =>
        (Some (failure 401 "Access denied"
                 (if String.eqb (bearerToken req) "" then "No token provided"
                  else "Invalid token")), w)
    | Some u =>
        if includes roles (au_role u)
        then run (route rest handler (set_user u req)) w
        else (Some (failure 403 "Access denied" "Insufficient permissions"), w)
    end.
Proof.
  rewrite run_route_cons, run_authenticateToken.
  destruct (authenticated jwt_verify req (db w)) as [u|]; [|reflexivity].
  rewrite run_route_cons, (run_authorizeRoles roles _ w u) by reflexivity.
  destruct (includes roles (au_role u)); reflexivity.
Qed.

Lemma issued_gate roles rest handler req w u :
  authenticated jwt_verify req (db w) = Some u →
  issued (route (authenticateToken jwt_verify :: authorizeRoles roles :: rest)
            handler req) w =
    UserFindUnique (au_id u) ::
      if includes roles (au_role u)
      then issued (route rest handler (set_user u req)) w
      else [].
Proof.
  intros Hu.
  rewrite issued_route_cons, (issued_authenticateToken _ _ u Hu).
  rewrite run_authenticateToken, Hu. cbn [app]. f_equal.
  rewrite issued_route_cons, (run_authorizeRoles roles _ w u) by reflexivity.
  unfold authorizeRoles; cbn [req_user set_user].
  destruct (includes roles (au_role u)); reflexivity.
Qed.

End Gate.

(** ** [POST /scan] *)

Section Scan.
Variable jwt_verify : string → option string.
Variable setHours0 : Z → Z.

Lemma run_scanHandler_invalid req w :
  req_errors req ≠ [] →
  run (scanHandler setHours0 req) w = (Some (validationError req), w).
Proof.
  intros Herr. unfold scanHandler.
  rewrite bool_decide_eq_false_2 by exact Herr. reflexivity.
Qed.

(** The handler, branch by branch, once validation has passed. *)
Lemma run_scanHandler req w :
  req_errors req = [] →
  run (scanHandler setHours0 req) w =
    match qrCodes (db w) !! body_qrCode req with
    | None => (Some invalidQrCode, w)
    | Some qr =>
        if clock w (reads w) >? qr_expiresAt qr then (Some qrCodeExpired, tick w)
        else
          match req_user req ≫= studentProfile with
          | None => (Some markingFailed, tick w)
          | Some student =>
              if decide ((sp_id student, qr_classId qr) ∈ enrollments (db w)) then
                let today := setHours0 (clock w (S (reads w))) in
                match List.find (attendanceMatches (sp_id student) (qr_classId qr)
                                   today (today + DAY)) (attendances (db w)) with
                | Some _ => (Some alreadyMarked, tick (tick w))
                | None =>
                    let row := scanned student (qr_classId qr)
                                 (clock w (S (S (reads w)))) (body_qrCode req) in
                    let w' :=
                      set_db (set_attendances (attendances (db w) ++ [row]) (db w))
                        (tick (tick (tick w))) in
                    match classes (db w) !! qr_classId qr with
                    | Some class =>
                        (Some {| status := 200;
                                 body := ScanJson (att_date row) PRESENT
                                           (class_name class) |}, w')
                    | None => (Some markingFailed, w')
                    end
                end
              else (Some notEnrolled, tick w)
          end
    end.
Proof.
  intros Herr. unfold scanHandler. rewrite Herr.
  destruct w as [d c n rnd m]; cbn.
  destruct (qrCodes d !! body_qrCode req) as [qr|]; cbn; [|reflexivity].
  destruct (c n >? qr_expiresAt qr); cbn; [reflexivity|].
  destruct (req_user req ≫= studentProfile) as [student|]; cbn; [|reflexivity].
  destruct (decide ((sp_id student, qr_classId qr) ∈ enrollments d)); cbn;
    [|reflexivity].
  destruct (List.find _ _); cbn; [reflexivity|].
  destruct (classes d !! qr_classId qr); cbn; reflexivity.
Qed.

(** Past the gate, a student's scan is the handler on the request with the
    user attached. *)
Lemma run_scan_student req w u :
  studentRequest jwt_verify req (db w) u →
  run (scan jwt_verify setHours0 req) w = run (scanHandler setHours0 (set_user u req)) w.
Proof.
  intros (Herr & Hqr & Hu & Hrole). unfold scan.
  rewrite run_gate, Hu, Hrole. cbn [includes existsb].
  rewrite bool_decide_eq_true_2 by reflexivity. cbn [orb].
  rewrite run_route_cons. unfold notEmpty. cbn [body_qrCode set_user].
  destruct (String.eqb_spec (body_qrCode req) ""); [contradiction|].
  reflexivity.
Qed.

(** C3: for a stored token, a student's scan whose expiry check reads the
    clock strictly after [expiresAt] is answered "QR code expired", and the
    world afterwards is the world before with one more clock read: no table
    has changed.  At or before [expiresAt] the scan is never answered "QR
    code expired". *)
Theorem scan_expired req w u qr :
  studentRequest jwt_verify req (db w) u →
  qrCodes (db w) !! body_qrCode req = Some qr →
  (clock w (reads w) > qr_expiresAt qr →
     run (scan jwt_verify setHours0 req) w = (Some qrCodeExpired, tick w))
  ∧ (clock w (reads w) <= qr_expiresAt qr →
     (run (scan jwt_verify setHours0 req) w).1 ≠ Some qrCodeExpired).
Proof.
  intros Hreq Hqr. rewrite (run_scan_student _ _ _ Hreq).
  destruct Hreq as (Herr & _).
  rewrite run_scanHandler by exact Herr. cbn [body_qrCode set_user req_user].
  rewrite Hqr. split; intros Ht.
  - by rewrite (proj2 (Z.gtb_gt _ _)) by lia.
  - destruct (Z.gtb_spec (clock w (reads w)) (qr_expiresAt qr)); [lia|].
    cbn [mbind option_bind].
    destruct (studentProfile u) as [student|]; [|discriminate].
    destruct (decide _); [|discriminate].
    cbn zeta. destruct (List.find _ _); [discriminate|].
    destruct (classes (db w) !! qr_classId qr); discriminate.
Qed.

(** C4, as the handler has it: for a stored token that has not expired,
    the scan of a student to whom a student profile is attached and who has
    no enrollment in the token's class is answered "You are not enrolled in
    this class", and no table has changed. *)
Theorem scan_notEnrolled req w u student qr :
  studentRequest jwt_verify req (db w) u →
  studentProfile u = Some student →
  qrCodes (db w) !! body_qrCode req = Some qr →
  clock w (reads w) <= qr_expiresAt qr →
  (sp_id student, qr_classId qr) ∉ enrollments (db w) →
  run (scan jwt_verify setHours0 req) w = (Some notEnrolled, tick w).
Proof.
  intros Hreq Hst Hqr Ht Henr. rewrite (run_scan_student _ _ _ Hreq).
  destruct Hreq as (Herr & _).
  rewrite run_scanHandler by exact Herr. cbn [body_qrCode set_user req_user].
  rewrite Hqr.
  destruct (Z.gtb_spec (clock w (reads w)) (qr_expiresAt qr)); [lia|].
  cbn [mbind option_bind]. rewrite Hst.
  by rewrite decide_False by exact Henr.
Qed.

(** C2, as the handler has it: once the token is found, has not expired
    and the student is enrolled in its class, the scan is answered
    "Attendance already marked" exactly when the student has a row for the
    class dated within the 24 hours that start at the local midnight before
    the scan; and then no table has changed. *)
Theorem scan_alreadyMarked_iff req w u student qr :
  studentRequest jwt_verify req (db w) u →
  studentProfile u = Some student →
  qrCodes (db w) !! body_qrCode req = Some qr →
  clock w (reads w) <= qr_expiresAt qr →
  (sp_id student, qr_classId qr) ∈ enrollments (db w) →
  let today := setHours0 (clock w (S (reads w))) in
  (markedToday (db w) (sp_id student) (qr_classId qr) today →
     run (scan jwt_verify setHours0 req) w = (Some alreadyMarked, tick (tick w)))
  ∧ ((run (scan jwt_verify setHours0 req) w).1 = Some alreadyMarked →
     markedToday (db w) (sp_id student) (qr_classId qr) today).
Proof.
  intros Hreq Hst Hqr Ht Henr today. rewrite (run_scan_student _ _ _ Hreq).
  destruct Hreq as (Herr & _).
  rewrite run_scanHandler by exact Herr. cbn [body_qrCode set_user req_user].
  rewrite Hqr.
  destruct (Z.gtb_spec (clock w (reads w)) (qr_expiresAt qr)); [lia|].
  cbn [mbind option_bind]. rewrite Hst.
  rewrite decide_True by exact Henr. cbn zeta. fold today.
  pose proof (find_markedToday (db w) (sp_id student) (qr_classId qr) today) as Hfind.
  destruct (List.find _ _) as [a|].
  - split; [reflexivity | intros _; apply Hfind; eauto].
  - split.
    + intros Hm. apply Hfind in Hm. destruct Hm as [? [=]].
    + destruct (classes (db w) !! qr_classId qr); discriminate.
Qed.

(** C5: a scan that is answered 200 has added exactly one row to the
    attendance table, at its end: the row of the signed-in student for the
    token's class, with status PRESENT, dated by the clock read made for
    the insertion, and carrying the scanned token string.  The rows that
    were there are still there, unchanged and in the same order, and no
    other table has changed. *)
Theorem scan_success_one_record req w response w' :
  run (scan jwt_verify setHours0 req) w = (Some response, w') →
  status response = 200%nat →
  ∃ u student qr,
    authenticated jwt_verify req (db w) = Some u
    ∧ studentProfile u = Some student
    ∧ qrCodes (db w) !! body_qrCode req = Some qr
    ∧ db w' =
        set_attendances
          (attendances (db w) ++
           [ {| att_studentId := sp_id student;
                att_classId := qr_classId qr;
                att_date := clock w (S (S (reads w)));
                att_status := PRESENT;
                att_qrCode := Some (body_qrCode req) |} ])
          (db w).
Proof.
  unfold scan. rewrite run_gate.
  destruct (authenticated jwt_verify req (db w)) as [u|] eqn:Hu;
    [|intros [= <- _]; discriminate].
  destruct (includes [STUDENT] (au_role u)); [|intros [= <- _]; discriminate].
  rewrite run_route_cons. unfold notEmpty.
  destruct (String.eqb (body_qrCode (set_user u req)) ""); cbn [run next].
  { cbn [route]. rewrite run_scanHandler_invalid.
    - intros [= <- _]; discriminate.
    - cbn. by destruct (req_errors req). }
  cbn [route].
  destruct (decide (req_errors (set_user u req) = [])) as [Herr|Herr];
    [|rewrite run_scanHandler_invalid by exact Herr; intros [= <- _]; discriminate].
  rewrite run_scanHandler by exact Herr. cbn [body_qrCode set_user req_user].
  destruct (qrCodes (db w) !! body_qrCode req) as [qr|];
    [|intros [= <- _]; discriminate].
  destruct (clock w (reads w) >? qr_expiresAt qr); [intros [= <- _]; discriminate|].
  cbn [mbind option_bind].
  destruct (studentProfile u) as [student|] eqn:Hst; [|intros [= <- _]; discriminate].
  destruct (decide _); [|intros [= <- _]; discriminate].
  cbn zeta. destruct (List.find _ _); [intros [= <- _]; discriminate|].
  destruct (classes (db w) !! qr_classId qr); [|intros [= <- _]; discriminate].
  intros [= <- <-] _. exists u, student, qr. repeat split; try done.
Qed.

Lemma authenticated_set_attendances req l d :
  authenticated jwt_verify req (set_attendances l d) = authenticated jwt_verify req d.
Proof. reflexivity. Qed.

(** C6: a scan does not use the token up.  Two students with distinct
    profiles, both enrolled in the token's class and neither marked for the
    day, scan the same token one after the other, each before it expires:
    both are answered 200, and the attendance table gains the row of the
    first and then the row of the second.  The token table is read, never
    written. *)
Theorem scan_distinct_students reqA reqB w uA uB a b qr class :
  studentRequest jwt_verify reqA (db w) uA → studentProfile uA = Some a →
  studentRequest jwt_verify reqB (db w) uB → studentProfile uB = Some b →
  sp_id a ≠ sp_id b →
  body_qrCode reqB = body_qrCode reqA →
  qrCodes (db w) !! body_qrCode reqA = Some qr →
  classes (db w) !! qr_classId qr = Some class →
  (sp_id a, qr_classId qr) ∈ enrollments (db w) →
  (sp_id b, qr_classId qr) ∈ enrollments (db w) →
  clock w (reads w) <= qr_expiresAt qr →
  clock w (3 + reads w)%nat <= qr_expiresAt qr →
  ¬ markedToday (db w) (sp_id a) (qr_classId qr)
      (setHours0 (clock w (1 + reads w)%nat)) →
  ¬ markedToday (db w) (sp_id b) (qr_classId qr)
      (setHours0 (clock w (4 + reads w)%nat)) →
  let rowA := scanned a (qr_classId qr) (clock w (2 + reads w)%nat) (body_qrCode reqA) in
  let rowB := scanned b (qr_classId qr) (clock w (5 + reads w)%nat) (body_qrCode reqA) in
  ∃ wa wb,
    run (scan jwt_verify setHours0 reqA) w =
      (Some {| status := 200;
               body := ScanJson (att_date rowA) PRESENT (class_name class) |}, wa)
    ∧ run (scan jwt_verify setHours0 reqB) wa =
      (Some {| status := 200;
               body := ScanJson (att_date rowB) PRESENT (class_name class) |}, wb)
    ∧ attendances (db wb) = attendances (db w) ++ [rowA; rowB]
    ∧ qrCodes (db wb) = qrCodes (db w).
Proof.
  intros HreqA HstA HreqB HstB Hne Hcode Hqr Hclass HenrA HenrB HtA HtB HmA HmB
    rowA rowB.
  subst rowA rowB. cbn [Nat.add] in *.
  destruct w as [d c n rnd m]. cbn [db clock reads] in *.
  eexists _, _. split; [|split].
  - rewrite run_scan_student with (u := uA) by exact HreqA.
    rewrite run_scanHandler by apply HreqA.
    cbn [body_qrCode set_user req_user db clock reads].
    rewrite Hqr.
    destruct (Z.gtb_spec (c n) (qr_expiresAt qr)); [lia|].
    cbn [mbind option_bind]. rewrite HstA, decide_True by exact HenrA.
    cbn zeta. rewrite (find_not_markedToday _ _ _ _ HmA), Hclass. reflexivity.
  - cbn [db set_db tick clock reads] in *.
    rewrite run_scan_student with (u := uB) by exact HreqB.
    rewrite run_scanHandler by apply HreqB.
    cbn [body_qrCode set_user req_user db set_db tick clock reads
         qrCodes enrollments classes attendances set_attendances].
    rewrite Hcode, Hqr.
    destruct (Z.gtb_spec (c (S (S (S n)))) (qr_expiresAt qr)); [lia|].
    cbn [mbind option_bind]. rewrite HstB, decide_True by exact HenrB.
    cbn zeta.
    match goal with
    | |- context [List.find ?f ?l] => assert (List.find f l = None) as ->
    end.
    { rewrite find_app, (find_not_markedToday _ _ _ _ HmB).
      unfold attendanceMatches, scanned; cbn.
      by rewrite bool_decide_eq_false_2 by exact Hne. }
    rewrite Hclass. reflexivity.
  - cbn. split; [by rewrite <- app_assoc | reflexivity].
Qed.

(** C9: a request that signs in a TEACHER or an ADMIN is refused by the
    route with 403 "Insufficient permissions".  The only storage call the
    request has made is the user lookup of [authenticateToken]: no token
    lookup, no enrollment check and no insertion; the world is as it was. *)
Theorem scan_forbidden_for_staff req w u :
  authenticated jwt_verify req (db w) = Some u →
  au_role u = TEACHER ∨ au_role u = ADMIN →
  run (scan jwt_verify setHours0 req) w =
    (Some (failure 403 "Access denied" "Insufficient permissions"), w)
  ∧ issued (scan jwt_verify setHours0 req) w = [UserFindUnique (au_id u)].
Proof.
  intros Hu Hrole. unfold scan.
  rewrite run_gate, (issued_gate _ _ _ _ _ _ u Hu), Hu.
  by destruct Hrole as [-> | ->].
Qed.

(** Whatever the request and the tables, the route answers. *)
Lemma scan_always_answers req w :
  is_Some (run (scan jwt_verify setHours0 req) w).1.
Proof.
  unfold scan. rewrite run_gate.
  destruct (authenticated jwt_verify req (db w)) as [u|]; [|cbn; eauto].
  destruct (includes [STUDENT] (au_role u)); [|cbn; eauto].
  rewrite run_route_cons. unfold notEmpty.
  destruct (String.eqb _ ""); cbn [run next route]; apply run_tryCatch_answers.
Qed.

(** A signed-in student to whom no profile is attached gets as far as the
    enrollment check, where [req.user.studentProfile.id] throws; the handler
    answers 500 and no table has changed. *)
Lemma scan_without_profile req w u qr :
  studentRequest jwt_verify req (db w) u →
  studentProfile u = None →
  qrCodes (db w) !! body_qrCode req = Some qr →
  clock w (reads w) <= qr_expiresAt qr →
  run (scan jwt_verify setHours0 req) w = (Some markingFailed, tick w).
Proof.
  intros Hreq Hst Hqr Ht. rewrite (run_scan_student _ _ _ Hreq).
  destruct Hreq as (Herr & _).
  rewrite run_scanHandler by exact Herr. cbn [body_qrCode set_user req_user].
  rewrite Hqr.
  destruct (Z.gtb_spec (clock w (reads w)) (qr_expiresAt qr)); [lia|].
  cbn [mbind option_bind]. by rewrite Hst.
Qed.

(** The race behind C1, in any world: a student who could be marked sends
    the same scan twice, and the two requests take their turns as
    [raceSchedule] says.  Both searches for a row of today come back empty,
    both insertions go through, both requests are answered 200, and the
    table has gained two rows of the student for the class. *)
Lemma scan_race req w u student qr class :
  studentRequest jwt_verify req (db w) u →
  studentProfile u = Some student →
  qrCodes (db w) !! body_qrCode req = Some qr →
  classes (db w) !! qr_classId qr = Some class →
  (sp_id student, qr_classId qr) ∈ enrollments (db w) →
  clock w (reads w) <= qr_expiresAt qr →
  clock w (2 + reads w)%nat <= qr_expiresAt qr →
  ¬ markedToday (db w) (sp_id student) (qr_classId qr)
      (setHours0 (clock w (1 + reads w)%nat)) →
  ¬ markedToday (db w) (sp_id student) (qr_classId qr)
      (setHours0 (clock w (3 + reads w)%nat)) →
  let row1 := scanned student (qr_classId qr) (clock w (4 + reads w)%nat)
                (body_qrCode req) in
  let row2 := scanned student (qr_classId qr) (clock w (5 + reads w)%nat)
                (body_qrCode req) in
  let '(first, second, w') :=
    interleave raceSchedule (scan jwt_verify setHours0 req)
      (scan jwt_verify setHours0 req) w in
  outcome first w' =
    Some (Some {| status := 200;
                  body := ScanJson (att_date row1) PRESENT (class_name class) |})
  ∧ outcome second w' =
    Some (Some {| status := 200;
                  body := ScanJson (att_date row2) PRESENT (class_name class) |})
  ∧ attendances (db w') = attendances (db w) ++ [row1; row2].
Proof.
  intros (Herr & Hcode & Hu & Hrole) Hst Hqr Hclass Henr Ht1 Ht2 Hm1 Hm2.
  cbn [Nat.add] in *.
  destruct w as [d c n rnd m]. cbn [db clock reads] in *.
  apply find_not_markedToday in Hm1, Hm2.
  unfold authenticated in Hu.
  destruct (String.eqb (bearerToken req) "") eqn:Htok; [discriminate|].
  destruct (jwt_verify (bearerToken req)) as [userId|] eqn:Hjwt; [|discriminate].
  cbn in Hu. destruct (users d !! userId) as [usr|] eqn:Husr; [|discriminate].
  cbn in Hu. injection Hu as <-. cbn in Hrole, Hst.
  apply String.eqb_neq in Hcode.
  assert ((c n >? qr_expiresAt qr) = false) as Hc1
    by (rewrite Z.gtb_ltb; apply Z.ltb_ge; lia).
  assert ((c (S (S n)) >? qr_expiresAt qr) = false) as Hc2
    by (rewrite Z.gtb_ltb; apply Z.ltb_ge; lia).
  unfold raceSchedule, scan, scanHandler, authenticateToken, authorizeRoles, notEmpty.
  cbn [route]. rewrite Htok, Hjwt.
  repeat (cbn; rewrite ?Husr, ?Hrole, ?Hcode, ?Herr, ?Hqr, ?Hc1, ?Hc2, ?Hst,
            ?Hm1, ?Hm2, ?Hclass, ?(decide_True _ _ Henr),
            ?(bool_decide_eq_true_2 (STUDENT = STUDENT) eq_refl)).
  repeat split. by rewrite <- app_assoc.
Qed.

End Scan.

(** ** [POST /generate-qr] *)

Section GenerateQr.
Variable jwt_verify : string → option string.

Lemma timestampConcatenation_qrCodeData classId now suffix :
  timestampConcatenation classId now (qrCodeData classId now suffix) = true.
Proof.
  unfold timestampConcatenation, qrCodeData.
  rewrite <- !append_assoc. apply prefix_append.
Qed.

(** What the handler stores and returns when it gets as far as issuing. *)
Lemma run_generateQrHandler_ok req w code expiresAt w' :
  run (generateQrHandler req) w =
    (Some {| status := 200; body := QrJson code expiresAt |}, w') →
  code = qrCodeData (body_classId req) (clock w (reads w)) (random w (draws w))
  ∧ expiresAt = clock w (S (reads w)) + 15 * 60 * 1000
  ∧ qrCodes (db w') !! code =
      Some {| qr_classId := body_classId req; qr_code := code;
              qr_expiresAt := expiresAt |}.
Proof.
  unfold generateQrHandler.
  destruct (bool_decide (req_errors req = [])); cbn [negb];
    [|intros [=]].
  destruct w as [d c n rnd m]; cbn.
  destruct (classes d !! body_classId req) as [classData|]; cbn; [|intros [=]].
  assert (∀ code0 row, qrCodes d !! code0 = None →
          <[code0 := row]> (qrCodes d) !! code0 = Some row) as Hstored
    by (intros; apply lookup_insert_eq).
  destruct (req_user req) as [user|]; cbn; [|intros [=]].
  destruct (bool_decide (au_role user = TEACHER)); cbn.
  - destruct (teacherProfiles d !! au_id user) as [teacherProfile|]; cbn;
      [|intros [=]].
    destruct (String.eqb (tp_id teacherProfile) (class_teacherId classData)); cbn;
      [|intros [=]].
    destruct (qrCodes d !! _) eqn:E; cbn; intros [= <- <- <-]; cbn; auto.
  - destruct (qrCodes d !! _) eqn:E; cbn; intros [= <- <- <-]; cbn; auto.
Qed.

(** C7, as the handler has it: the token string returned by a successful
    [POST /generate-qr] is the class id, the millisecond clock at issue and
    the string derived from one [Math.random()] draw, joined by dashes: it
    begins with the class id and the issuing instant, and these three
    determine it.  It is stored under that string and expires fifteen
    minutes after the handler's second clock read. *)
Theorem generateQr_code req w code expiresAt w' :
  run (generateQr jwt_verify req) w =
    (Some {| status := 200; body := QrJson code expiresAt |}, w') →
  code = qrCodeData (body_classId req) (clock w (reads w)) (random w (draws w))
  ∧ timestampConcatenation (body_classId req) (clock w (reads w)) code = true
  ∧ expiresAt = clock w (S (reads w)) + 15 * 60 * 1000
  ∧ qrCodes (db w') !! code =
      Some {| qr_classId := body_classId req; qr_code := code;
              qr_expiresAt := expiresAt |}.
Proof.
  unfold generateQr. rewrite run_gate.
  destruct (authenticated jwt_verify req (db w)) as [u|]; [|intros [=]].
  destruct (includes [TEACHER; ADMIN] (au_role u)); [|intros [=]].
  rewrite run_route_cons. unfold notEmpty.
  destruct (String.eqb (body_classId (set_user u req)) ""); cbn [run next route].
  { unfold generateQrHandler. cbn [req_errors add_error set_user].
    rewrite bool_decide_eq_false_2 by (by destruct (req_errors req)).
    intros [=]. }
  intros H. apply run_generateQrHandler_ok in H.
  cbn [body_classId set_user] in H. destruct H as (-> & -> & H).
  repeat split; [apply timestampConcatenation_qrCodeData | exact H].
Qed.

End GenerateQr.

(** ** [DELETE /users/:id] *)

Section DeleteUser.
Variable jwt_verify : string → option string.

(** C8: when an administrator deletes an existing user, the request is
    answered 200 and afterwards the user row is gone, no student, teacher
    or admin profile is attached to the user id, and, if a student profile
    was attached, no enrollment and no attendance row references it. *)
Theorem deleteUser_cascades req w admin target :
  authenticated jwt_verify req (db w) = Some admin →
  au_role admin = ADMIN →
  users (db w) !! params_id req = Some target →
  ∃ w',
    run (deleteUser jwt_verify req) w =
      (Some {| status := 200; body := MessageJson "User deleted successfully" |}, w')
    ∧ users (db w') !! params_id req = None
    ∧ studentProfiles (db w') !! params_id req = None
    ∧ teacherProfiles (db w') !! params_id req = None
    ∧ adminProfiles (db w') !! params_id req = None
    ∧ ∀ student, studentProfiles (db w) !! params_id req = Some student →
        (∀ classId, (sp_id student, classId) ∉ enrollments (db w'))
        ∧ (∀ a, a ∈ attendances (db w') → att_studentId a ≠ sp_id student).
Proof.
  intros Hadmin Hrole Htarget. unfold deleteUser.
  rewrite run_gate, Hadmin, Hrole. cbn [includes existsb].
  rewrite bool_decide_eq_true_2 by reflexivity. cbn [orb route].
  unfold deleteUserHandler. cbn [params_id set_user].
  destruct w as [d c n rnd m]; cbn in *. rewrite Htarget; cbn. rewrite Htarget; cbn.
  eexists; split; [reflexivity|]. cbn.
  rewrite !lookup_delete_eq. split_and!; try reflexivity.
  intros student Hsp. rewrite Hsp. split.
  - intros classId [Hnot _]%elem_of_filter. by apply Hnot.
  - intros a [Hnot _]%list_elem_of_filter Heq. apply Hnot.
    unfold ownedBy. cbn. by rewrite Heq.
Qed.

End DeleteUser.

(** ** [GET /attendance/student] *)

Section StudentAttendance.
Variable jwt_verify : string → option string.

Lemma percentage_nil : percentage [] = S754_zero false.
Proof. reflexivity. Qed.




End StudentAttendance.

(** ** The school at work *)

Import Scenario.

(** The teacher's code, as issued at [T]. *)
Example classroom_token : qrCodes (db classroom) !! code = Some token.
Proof. vm_compute. reflexivity. Qed.

(** The scenario of the specification: Alice scans and is marked PRESENT,
    scans again and is told she is already marked; after the code has
    expired Bob is told so. *)
Example scenario_of_the_specification :
  (run (scan jwt utc aliceScans) classroom).1 =
    Some {| status := 200;
            body := ScanJson (T + 4 * MINUTE) PRESENT "Mathematics 10A" |}
  ∧ (run (scan jwt utc aliceScans) aliceMarked).1 = Some alreadyMarked
  ∧ (run (scan jwt utc bobScans) (at_time (T + 17 * MINUTE) aliceMarked)).1 =
      Some qrCodeExpired.
Proof. vm_compute. repeat split. Qed.

(** The day of a scan is the calendar day, not the 24 hours after the
    first check-in: marked a minute before midnight, Alice is marked again
    three minutes later, on the next day, with the same code. *)
Example scan_day_is_the_calendar_day :
  let evening := world (MIDNIGHT - 5 * MINUTE) school in
  let issued := run (generateQr jwt issue) evening in
  let code := "c-math-1700006100000-k3j9x0q2z" in
  let first := run (scan jwt utc (request "u-alice" code "" "")) issued.2 in
  let second := run (scan jwt utc (request "u-alice" code "" "")) first.2 in
  first.1 = Some {| status := 200;
                    body := ScanJson (MIDNIGHT - MINUTE) PRESENT "Mathematics 10A" |}
  ∧ second.1 = Some {| status := 200;
                       body := ScanJson (MIDNIGHT + 2 * MINUTE) PRESENT
                                 "Mathematics 10A" |}.
Proof. vm_compute. repeat split. Qed.

(** C1 at work: two scans of Alice with the same code, each asking whether
    she is marked before either inserts.  Both are answered 200 and the
    table holds two rows of Alice for the class, four minutes apart on the
    same day. *)
Theorem scan_race_marks_twice :
  let '(first, second, w) :=
    interleave raceSchedule (scan jwt utc aliceScans) (scan jwt utc aliceScans)
      classroom in
  outcome first w =
    Some (Some {| status := 200;
                  body := ScanJson (T + 6 * MINUTE) PRESENT "Mathematics 10A" |})
  ∧ outcome second w =
    Some (Some {| status := 200;
                  body := ScanJson (T + 7 * MINUTE) PRESENT "Mathematics 10A" |})
  ∧ attendances (db w) =
      [scanned alice "c-math" (T + 6 * MINUTE) code;
       scanned alice "c-math" (T + 7 * MINUTE) code]
  ∧ utc (T + 6 * MINUTE) = utc (T + 7 * MINUTE).
Proof. vm_compute. repeat split. Qed.

(** Two different students in the same race are both marked, once each. *)
Example scan_distinct_students_interleaved :
  let '(first, second, w) :=
    interleave raceSchedule (scan jwt utc aliceScans) (scan jwt utc bobScans)
      classroom in
  attendances (db w) =
    [scanned alice "c-math" (T + 6 * MINUTE) code;
     scanned bob "c-math" (T + 7 * MINUTE) code].
Proof. vm_compute. reflexivity. Qed.

(** Without interleaving the check does its work: the second of two scans
    run one after the other is refused. *)
Example scan_twice_in_a_row :
  (run (scan jwt utc aliceScans) aliceMarked).1 = Some alreadyMarked
  ∧ attendances (db (run (scan jwt utc aliceScans) aliceMarked).2) =
      [scanned alice "c-math" (T + 4 * MINUTE) code].
Proof. vm_compute. repeat split. Qed.

(** C2 as stated fails: Alice is marked for the class today, yet her scan
    of the expired code is answered "QR code expired", not "Attendance
    already marked". *)
Lemma scan_alreadyMarked_iff_counterexample :
  let w := at_time (T + 17 * MINUTE) aliceMarked in
  ¬ ((run (scan jwt utc aliceScans) w).1 = Some alreadyMarked
      ∧ db (run (scan jwt utc aliceScans) w).2 = db w
     ↔ markedToday (db w) (sp_id alice) (qr_classId token) (utc (clock w (reads w)))).
Proof.
  intros w [_ H].
  assert ((run (scan jwt utc aliceScans) w).1 = Some qrCodeExpired) as E
    by (vm_compute; reflexivity).
  rewrite E in H. destruct H as [H _]; [compute_done | discriminate H].
Qed.

Lemma scan_alreadyMarked_iff_witness :
  run (scan jwt utc aliceScans) aliceMarked =
    (Some alreadyMarked, tick (tick aliceMarked))
  ∧ ((run (scan jwt utc aliceScans) classroom).1 = Some alreadyMarked →
     markedToday (db classroom) (sp_id alice) (qr_classId token)
       (utc (clock classroom (S (reads classroom))))).
Proof.
  split.
  - apply (scan_alreadyMarked_iff jwt utc aliceScans aliceMarked aliceUser alice token);
      try compute_done.
    vm_compute. by repeat split.
  - apply (scan_alreadyMarked_iff jwt utc aliceScans classroom aliceUser alice token);
      try compute_done.
    vm_compute. by repeat split.
Defined.

Lemma scan_expired_witness :
  run (scan jwt utc bobScans) (at_time (T + 17 * MINUTE) aliceMarked) =
    (Some qrCodeExpired, tick (at_time (T + 17 * MINUTE) aliceMarked))
  ∧ (run (scan jwt utc bobScans) (at_time (T + 16 * MINUTE) aliceMarked)).1
    ≠ Some qrCodeExpired.
Proof.
  split.
  - apply (scan_expired jwt utc bobScans (at_time (T + 17 * MINUTE) aliceMarked)
             bobUser token); try compute_done.
    vm_compute. by repeat split.
  - apply (scan_expired jwt utc bobScans (at_time (T + 16 * MINUTE) aliceMarked)
             bobUser token); try compute_done.
    vm_compute. by repeat split.
Defined.

Lemma scan_notEnrolled_witness :
  run (scan jwt utc carolScans) classroom = (Some notEnrolled, tick classroom).
Proof.
  apply (scan_notEnrolled jwt utc carolScans classroom carolUser carol token);
    try compute_done.
  vm_compute. by repeat split.
Defined.

(** C4 as stated fails: Dave is a signed-in STUDENT to whose user no
    student profile is attached, so no enrollment is his; he scans the
    teacher's code before it expires and is answered 500 "Attendance
    marking failed", not "You are not enrolled in this class".  No row is
    created. *)
Lemma scan_notEnrolled_counterexample :
  let w := Campus.artRoomWithCode in
  studentRequest jwt Campus.daveScans (db w) Campus.daveUser
  ∧ qrCodes (db w) !! body_qrCode Campus.daveScans = Some token
  ∧ clock w (reads w) <= qr_expiresAt token
  ∧ studentProfiles (db w) !! "u-dave" = None
  ∧ (∀ student, studentProfile Campus.daveUser = Some student →
       (sp_id student, qr_classId token) ∉ enrollments (db w))
  ∧ (run (scan jwt utc Campus.daveScans) w).1 = Some markingFailed
  ∧ (run (scan jwt utc Campus.daveScans) w).1 ≠ Some notEnrolled
  ∧ attendances (db (run (scan jwt utc Campus.daveScans) w).2) = attendances (db w).
Proof.
  assert ((run (scan jwt utc Campus.daveScans) Campus.artRoomWithCode).1 =
            Some markingFailed) as E by (vm_compute; reflexivity).
  cbn zeta. rewrite E. split_and!.
  - vm_compute. by repeat split.
  - vm_compute. reflexivity.
  - compute_done.
  - vm_compute. reflexivity.
  - intros student [=].
  - reflexivity.
  - discriminate.
  - vm_compute. reflexivity.
Qed.

Lemma scan_success_one_record_witness :
  ∃ u student qr,
    authenticated jwt aliceScans (db classroom) = Some u
    ∧ studentProfile u = Some student
    ∧ qrCodes (db classroom) !! body_qrCode aliceScans = Some qr
    ∧ db aliceMarked =
        set_attendances
          (attendances (db classroom) ++
           [ {| att_studentId := sp_id student;
                att_classId := qr_classId qr;
                att_date := clock classroom (S (S (reads classroom)));
                att_status := PRESENT;
                att_qrCode := Some (body_qrCode aliceScans) |} ])
          (db classroom).
Proof.
  apply (scan_success_one_record jwt utc aliceScans classroom
           {| status := 200;
              body := ScanJson (T + 4 * MINUTE) PRESENT "Mathematics 10A" |}
           aliceMarked).
  - apply pair_fst_snd.
    + vm_compute. reflexivity.
    + reflexivity.
  - reflexivity.
Defined.

Lemma scan_distinct_students_witness :
  ∃ wa wb,
    run (scan jwt utc aliceScans) classroom =
      (Some {| status := 200;
               body := ScanJson (T + 4 * MINUTE) PRESENT "Mathematics 10A" |}, wa)
    ∧ run (scan jwt utc bobScans) wa =
      (Some {| status := 200;
               body := ScanJson (T + 7 * MINUTE) PRESENT "Mathematics 10A" |}, wb)
    ∧ attendances (db wb) =
        attendances (db classroom) ++
          [scanned alice "c-math" (T + 4 * MINUTE) code;
           scanned bob "c-math" (T + 7 * MINUTE) code]
    ∧ qrCodes (db wb) = qrCodes (db classroom).
Proof.
  apply (scan_distinct_students jwt utc aliceScans bobScans classroom
           aliceUser bobUser alice bob token
           {| class_name := "Mathematics 10A"; class_teacherId := "t-john" |});
    try compute_done.
  - vm_compute. by repeat split.
  - vm_compute. by repeat split.
Defined.

Lemma scan_forbidden_for_staff_witness :
  run (scan jwt utc johnScans) classroom =
    (Some (failure 403 "Access denied" "Insufficient permissions"), classroom)
  ∧ issued (scan jwt utc johnScans) classroom = [UserFindUnique "u-john"].
Proof.
  apply (scan_forbidden_for_staff jwt utc johnScans classroom johnUser).
  - vm_compute. reflexivity.
  - left. reflexivity.
Defined.

(** C7 as stated fails: the code issued at [T] for the class ["c-math"] is
    the class id, [T] in decimal and the nine digits drawn, joined by
    dashes. *)
Lemma generateQr_code_counterexample :
  (run (generateQr jwt issue) (world T school)).1 =
    Some {| status := 200;
            body := QrJson "c-math-1700000000000-k3j9x0q2z" (T + 16 * MINUTE) |}
  ∧ timestampConcatenation "c-math" T "c-math-1700000000000-k3j9x0q2z" = true.
Proof. vm_compute. by split. Qed.

(** Nothing else enters the code: a second request for the class in the
    same millisecond, with the same draw, gets the same string, and the
    insertion fails on the taken key. *)
Example generateQr_same_instant_same_draw :
  let frozen := {| db := school; clock := λ _, T; reads := 0;
                   random := λ _, "k3j9x0q2z"; draws := 0 |} in
  let first := run (generateQr jwt issue) frozen in
  first.1 = Some {| status := 200;
                    body := QrJson "c-math-1700000000000-k3j9x0q2z" (T + 15 * MINUTE) |}
  ∧ (run (generateQr jwt issue) first.2).1 =
      Some (failure 500 "QR generation failed" "Failed to generate QR code").
Proof. vm_compute. by split. Qed.

Lemma generateQr_code_witness :
  code = qrCodeData (body_classId issue) (clock (world T school) 0)
           (random (world T school) 0)
  ∧ timestampConcatenation (body_classId issue) (clock (world T school) 0) code = true
  ∧ T + 16 * MINUTE = clock (world T school) 1 + 15 * 60 * 1000
  ∧ qrCodes (db classroom) !! code =
      Some {| qr_classId := body_classId issue; qr_code := code;
              qr_expiresAt := T + 16 * MINUTE |}.
Proof.
  apply (generateQr_code jwt issue (world T school) code (T + 16 * MINUTE) classroom).
  apply pair_fst_snd.
  - vm_compute. reflexivity.
  - reflexivity.
Defined.

Lemma deleteUser_cascades_witness :
  let req := request "u-admin" "" "" "u-alice" in
  ∃ w',
    run (deleteUser jwt req) aliceMarked =
      (Some {| status := 200; body := MessageJson "User deleted successfully" |}, w')
    ∧ users (db w') !! "u-alice" = None
    ∧ studentProfiles (db w') !! "u-alice" = None
    ∧ teacherProfiles (db w') !! "u-alice" = None
    ∧ adminProfiles (db w') !! "u-alice" = None
    ∧ ∀ student, studentProfiles (db aliceMarked) !! "u-alice" = Some student →
        (∀ classId, (sp_id student, classId) ∉ enrollments (db w'))
        ∧ (∀ a, a ∈ attendances (db w') → att_studentId a ≠ sp_id student).
Proof.
  apply (deleteUser_cascades jwt (request "u-admin" "" "" "u-alice") aliceMarked
           adminUser {| user_name := "Alice Wilson"; user_role := STUDENT |}).
  - vm_compute. reflexivity.
  - reflexivity.
  - vm_compute. reflexivity.
Defined.

(** What is left of the school once Alice is deleted: her check-in and her
    enrollment are gone, Bob's enrollment is not. *)
Example deleteUser_alice :
  let w' := (run (deleteUser jwt (request "u-admin" "" "" "u-alice")) aliceMarked).2 in
  attendances (db aliceMarked) = [scanned alice "c-math" (T + 4 * MINUTE) code]
  ∧ attendances (db w') = []
  ∧ elements (enrollments (db w')) = [("s-bob", "c-math")].
Proof. vm_compute. by repeat split. Qed.


(** The same term, as Alice's summary reports it. *)
Example studentAttendance_23_of_160 :
  ∃ rows,
    (run (studentAttendance jwt aliceScans)
       (world T (set_attendances term school))).1 =
      Some {| status := 200;
              body := StudentJson rows 160 23 137
                        (js_div (toNumber 1437) (toNumber 100)) |}.
Proof. eexists. vm_compute. reflexivity. Qed.

(** Where no rounding error interferes, a tie goes upwards: 1 of 32 is
    3.125 per cent and is reported as 3.13. *)
Example percentage_1_of_32 :
  percentage (lesson PRESENT :: repeat (lesson ABSENT) 31) = roundedPercentage 1 32
  ∧ roundedPercentage 1 32 = js_div (toNumber 313) (toNumber 100).
Proof. vm_compute. by split. Qed.


(** * Further properties of the routes *)

(** ** The gate, for any route *)

Section GateMore.
Variable jwt_verify : string → option string.

Lemma issued_authenticateToken_None req w :
  authenticated jwt_verify req (db w) = None →
  issued (authenticateToken jwt_verify req) w =
    if String.eqb (bearerToken req) "" then []
    else match jwt_verify (bearerToken req) with
         | Some userId => [UserFindUnique userId]
         | None => []
         end.
Proof.
  unfold authenticateToken, authenticated.
  destruct w as [d c n rnd m]; cbn.
  destruct (String.eqb (bearerToken req) ""); cbn; [reflexivity|].
  destruct (jwt_verify (bearerToken req)) as [userId|]; cbn; [|reflexivity].
  destruct (users d !! userId) as [u|]; cbn; [discriminate | reflexivity].
Qed.

(** X1: A route that opens with [authenticateToken] answers a request that
    signs nobody in with 401, whatever middlewares and handler follow, and
    leaves the world as it was; the only storage calls made for it look a
    user up, and without a token there is none. *)
Theorem gate_unauthenticated rest handler req w :
  authenticated jwt_verify req (db w) = None →
  run (route (authenticateToken jwt_verify :: rest) handler req) w =
    (Some (failure 401 "Access denied"
             (if String.eqb (bearerToken req) "" then "No token provided"
              else "Invalid token")), w)
  ∧ Forall (λ q, ∃ id, q = UserFindUnique id)
      (issued (route (authenticateToken jwt_verify :: rest) handler req) w)
  ∧ (bearerToken req = "" →
     issued (route (authenticateToken jwt_verify :: rest) handler req) w = []).
Proof.
  intros Hu. rewrite run_route_cons, issued_route_cons, run_authenticateToken, Hu.
  rewrite app_nil_r, (issued_authenticateToken_None _ _ Hu).
  split; [reflexivity|]. split.
  - destruct (String.eqb (bearerToken req) ""); [constructor|].
    destruct (jwt_verify (bearerToken req)); repeat constructor; eauto.
  - intros ->. reflexivity.
Qed.

(** X2: A route that opens with [authenticateToken] and
    [authorizeRoles roles] hands a signed-in user whose role is among
    [roles] to what follows, with the user attached to the request; a user
    with another role is answered 403, nothing has changed, and the only
    storage call made is the lookup of this user. *)
Theorem gate_roles roles rest handler req w u :
  authenticated jwt_verify req (db w) = Some u →
  (au_role u ∈ roles →
     run (route (authenticateToken jwt_verify :: authorizeRoles roles :: rest)
            handler req) w =
       run (route rest handler (set_user u req)) w)
  ∧ (au_role u ∉ roles →
     run (route (authenticateToken jwt_verify :: authorizeRoles roles :: rest)
            handler req) w =
       (Some (failure 403 "Access denied" "Insufficient permissions"), w)
     ∧ issued (route (authenticateToken jwt_verify :: authorizeRoles roles :: rest)
                 handler req) w = [UserFindUnique (au_id u)]).
Proof.
  intros Hu. rewrite run_gate, (issued_gate _ _ _ _ _ _ u Hu), Hu.
  assert (includes roles (au_role u) = true ↔ au_role u ∈ roles) as Hin.
  { unfold includes. rewrite existsb_exists. split.
    - intros (r & Hr & Heq). apply bool_decide_eq_true in Heq. subst.
      by apply list_elem_of_In.
    - intros Hr. exists (au_role u). split; [by apply list_elem_of_In|].
      by apply bool_decide_eq_true. }
  destruct (includes roles (au_role u)).
  - split; [reflexivity | intros Hn; destruct Hn; by apply Hin].
  - split; [intros Hr; apply Hin in Hr; discriminate | done].
Qed.

End GateMore.

(** ** The bearer token *)

Lemma split_spaceFree (s : string) :
  spaceFree s = true → split " " s = [s].
Proof.
  induction s as [|c s IH]; cbn; [reflexivity|].
  intros [Hc Hs]%andb_true_iff. apply negb_true_iff in Hc. rewrite Hc.
  by rewrite (IH Hs).
Qed.

Lemma split_word (word rest : string) :
  spaceFree word = true →
  split " " (word +:+ " " +:+ rest) = word :: split " " rest.
Proof.
  induction word as [|c word IH]; intros Hw.
  - reflexivity.
  - cbn in Hw. apply andb_true_iff in Hw as [Hc Hw]. apply negb_true_iff in Hc.
    change (split " " (String c (word +:+ " " +:+ rest)) = String c word :: split " " rest).
    cbn [split]. rewrite Hc, (IH Hw). reflexivity.
Qed.

(** X3: The token of a request is the second word of its [Authorization]
    header.  The first word is not looked at: any word will do where
    ["Bearer"] is expected.  Words after the second are ignored, and a
    header of a single word carries no token. *)
Theorem bearerToken_second_word req scheme token more :
  spaceFree scheme = true →
  spaceFree token = true →
  (req_authorization req = Some (scheme +:+ " " +:+ token)
   ∨ req_authorization req = Some (scheme +:+ " " +:+ token +:+ " " +:+ more) →
   bearerToken req = token)
  ∧ (req_authorization req = Some scheme → bearerToken req = "").
Proof.
  intros Hs Ht. unfold bearerToken. split.
  - intros [-> | ->]; rewrite (split_word _ _ Hs).
    + by rewrite (split_spaceFree _ Ht).
    + by rewrite (split_word _ _ Ht).
  - intros ->. by rewrite (split_spaceFree _ Hs).
Qed.

(** ** [POST /generate-qr], branch by branch *)

Section GenerateQrMore.
Variable jwt_verify : string → option string.

Lemma run_generateQrHandler req w :
  req_errors req = [] →
  run (generateQrHandler req) w =
    match classes (db w) !! body_classId req with
    | None =>
        (Some (failure 404 "Class not found" "The specified class does not exist"), w)
    | Some classData =>
        let create :=
          let code := qrCodeData (body_classId req) (clock w (reads w))
                        (random w (draws w)) in
          let row := {| qr_classId := body_classId req; qr_code := code;
                        qr_expiresAt := clock w (S (reads w)) + 15 * 60 * 1000 |} in
          match qrCodes (db w) !! code with
          | Some _ =>
              (Some (failure 500 "QR generation failed" "Failed to generate QR code"),
               tick (drawn (tick w)))
          | None =>
              (Some {| status := 200; body := QrJson code (qr_expiresAt row) |},
               set_db (set_qrCodes (<[code := row]> (qrCodes (db w))) (db w))
                 (tick (drawn (tick w))))
          end in
        match req_user req with
        | None =>
            (Some (failure 500 "QR generation failed" "Failed to generate QR code"), w)
        | Some user =>
            if bool_decide (au_role user = TEACHER) then
              match teacherProfiles (db w) !! au_id user with
              | None =>
                  (Some (failure 403 "Access denied"
                           "You can only generate QR codes for your own classes"), w)
              | Some teacherProfile =>
                  if String.eqb (tp_id teacherProfile) (class_teacherId classData)
                  then create
                  else (Some (failure 403 "Access denied"
                                "You can only generate QR codes for your own classes"), w)
              end
            else create
        end
    end.
Proof.
  intros Herr. unfold generateQrHandler. rewrite Herr.
  destruct w as [d c n rnd m]; cbn.
  destruct (classes d !! body_classId req) as [classData|]; cbn; [|reflexivity].
  destruct (req_user req) as [user|]; cbn; [|reflexivity].
  destruct (bool_decide (au_role user = TEACHER)); cbn.
  - destruct (teacherProfiles d !! au_id user) as [teacherProfile|]; cbn;
      [|reflexivity].
    destruct (String.eqb (tp_id teacherProfile) (class_teacherId classData)); cbn;
      [|reflexivity].
    destruct (qrCodes d !! _); reflexivity.
  - destruct (qrCodes d !! _); reflexivity.
Qed.

(** Past the gate, a teacher's or an administrator's request is the handler
    on the request with the user attached. *)
Lemma run_generateQr_issuer req w u :
  issuerRequest jwt_verify req (db w) u →
  au_role u ≠ STUDENT →
  run (generateQr jwt_verify req) w = run (generateQrHandler (set_user u req)) w.
Proof.
  intros (Herr & Hcls & Hu) Hrole. unfold generateQr.
  rewrite run_gate, Hu.
  assert (includes [TEACHER; ADMIN] (au_role u) = true) as ->
    by (destruct (au_role u); done).
  rewrite run_route_cons. unfold notEmpty. cbn [body_classId set_user].
  destruct (String.eqb_spec (body_classId req) ""); [contradiction|].
  reflexivity.
Qed.

(** X4: A user in charge of an existing class gets a code for it: the route
    answers 200 with the generated string, stores one token under it for
    the class, expiring fifteen minutes after the second clock read, and
    changes nothing else.  If the generated string is already the key of a
    stored token, the insertion is refused: the route answers 500 and the
    stored token stays as it is. *)
Theorem generateQr_issues req w u classData :
  issuerRequest jwt_verify req (db w) u →
  classes (db w) !! body_classId req = Some classData →
  inCharge (db w) u classData →
  let code := qrCodeData (body_classId req) (clock w (reads w))
                (random w (draws w)) in
  let row := {| qr_classId := body_classId req; qr_code := code;
                qr_expiresAt := clock w (S (reads w)) + 15 * 60 * 1000 |} in
  (qrCodes (db w) !! code = None →
     run (generateQr jwt_verify req) w =
       (Some {| status := 200; body := QrJson code (qr_expiresAt row) |},
        set_db (set_qrCodes (<[code := row]> (qrCodes (db w))) (db w))
          (tick (drawn (tick w)))))
  ∧ (is_Some (qrCodes (db w) !! code) →
     run (generateQr jwt_verify req) w =
       (Some (failure 500 "QR generation failed" "Failed to generate QR code"),
        tick (drawn (tick w)))).
Proof.
  intros Hreq Hclass Hin code row.
  assert (au_role u ≠ STUDENT) as Hrole
    by (intros E; unfold inCharge in Hin; by rewrite E in Hin).
  rewrite (run_generateQr_issuer _ _ _ Hreq Hrole).
  destruct Hreq as (Herr & _ & _).
  rewrite run_generateQrHandler by exact Herr.
  cbn [body_classId set_user req_user]. rewrite Hclass. cbn zeta.
  fold code. fold row.
  assert (∀ X (create other : X),
            (if bool_decide (au_role u = TEACHER) then
               match teacherProfiles (db w) !! au_id u with
               | None => other
               | Some teacherProfile =>
                   if String.eqb (tp_id teacherProfile) (class_teacherId classData)
                   then create else other
               end
             else create) = create) as ->.
  { intros X create other. unfold inCharge in Hin.
    destruct (au_role u); try done. cbn.
    destruct (teacherProfiles (db w) !! au_id u); [|done].
    by rewrite (proj2 (String.eqb_eq _ _) Hin). }
  split.
  - by intros ->.
  - by intros [? ->].
Qed.

(** X5: A teacher asking for a code for a class of another teacher, or with no
    teacher profile stored, is refused with 403; nothing is stored. *)
Theorem generateQr_foreign_class req w u classData :
  issuerRequest jwt_verify req (db w) u →
  au_role u = TEACHER →
  classes (db w) !! body_classId req = Some classData →
  ¬ inCharge (db w) u classData →
  run (generateQr jwt_verify req) w =
    (Some (failure 403 "Access denied"
             "You can only generate QR codes for your own classes"), w).
Proof.
  intros Hreq Hrole Hclass Hin.
  rewrite (run_generateQr_issuer _ _ _ Hreq) by (by rewrite Hrole).
  destruct Hreq as (Herr & _ & _).
  rewrite run_generateQrHandler by exact Herr.
  cbn [body_classId set_user req_user]. rewrite Hclass. cbn zeta.
  unfold inCharge in Hin. rewrite Hrole in *. cbn.
  destruct (teacherProfiles (db w) !! au_id u) as [teacherProfile|]; [|reflexivity].
  destruct (String.eqb_spec (tp_id teacherProfile) (class_teacherId classData));
    [contradiction | reflexivity].
Qed.

(** X6: A teacher or an administrator who asks for a code for a class that
    does not exist is refused with 404; nothing is stored. *)
Theorem generateQr_missing_class req w u :
  issuerRequest jwt_verify req (db w) u →
  au_role u ≠ STUDENT →
  classes (db w) !! body_classId req = None →
  run (generateQr jwt_verify req) w =
    (Some (failure 404 "Class not found" "The specified class does not exist"), w).
Proof.
  intros Hreq Hrole Hclass. rewrite (run_generateQr_issuer _ _ _ Hreq Hrole).
  destruct Hreq as (Herr & _ & _).
  rewrite run_generateQrHandler by exact Herr.
  cbn [body_classId set_user req_user]. by rewrite Hclass.
Qed.

Lemma run_generateQrHandler_invalid req w :
  req_errors req ≠ [] →
  run (generateQrHandler req) w = (Some (validationError req), w).
Proof.
  intros Herr. unfold generateQrHandler.
  rewrite bool_decide_eq_false_2 by exact Herr. reflexivity.
Qed.

(** X7: Whatever the request, [POST /generate-qr] only ever adds to the token
    table: every token that was stored is still stored, unchanged, and the
    other tables are as they were. *)
Theorem generateQr_only_adds_tokens req w :
  let d' := db (run (generateQr jwt_verify req) w).2 in
  qrCodes (db w) ⊆ qrCodes d'
  ∧ users d' = users (db w)
  ∧ studentProfiles d' = studentProfiles (db w)
  ∧ teacherProfiles d' = teacherProfiles (db w)
  ∧ adminProfiles d' = adminProfiles (db w)
  ∧ classes d' = classes (db w)
  ∧ enrollments d' = enrollments (db w)
  ∧ attendances d' = attendances (db w).
Proof.
  unfold generateQr. rewrite run_gate.
  destruct (authenticated jwt_verify req (db w)) as [u|]; [|done].
  destruct (includes [TEACHER; ADMIN] (au_role u)); [|done].
  rewrite run_route_cons. unfold notEmpty.
  destruct (String.eqb (body_classId (set_user u req)) ""); cbn [run next route].
  { rewrite run_generateQrHandler_invalid; [done|].
    cbn. by destruct (req_errors req). }
  destruct (decide (req_errors (set_user u req) = [])) as [Herr|Herr];
    [|by rewrite run_generateQrHandler_invalid].
  rewrite run_generateQrHandler by exact Herr.
  cbn [body_classId set_user req_user].
  destruct (classes (db w) !! body_classId req) as [classData|]; [|done].
  cbn zeta.
  assert (∀ code row,
            let r := match qrCodes (db w) !! code with
                     | Some _ =>
                         (Some (failure 500 "QR generation failed"
                                  "Failed to generate QR code"),
                          tick (drawn (tick w)))
                     | None =>
                         (Some {| status := 200;
                                  body := QrJson code (qr_expiresAt row) |},
                          set_db (set_qrCodes (<[code := row]> (qrCodes (db w))) (db w))
                            (tick (drawn (tick w))))
                     end in
            qrCodes (db w) ⊆ qrCodes (db r.2)
            ∧ users (db r.2) = users (db w)
            ∧ studentProfiles (db r.2) = studentProfiles (db w)
            ∧ teacherProfiles (db r.2) = teacherProfiles (db w)
            ∧ adminProfiles (db r.2) = adminProfiles (db w)
            ∧ classes (db r.2) = classes (db w)
            ∧ enrollments (db r.2) = enrollments (db w)
            ∧ attendances (db r.2) = attendances (db w)) as Hcreate.
  { intros code row. destruct (qrCodes (db w) !! code) eqn:E; [done|].
    cbn. split_and!; try done. by apply insert_subseteq. }
  destruct (bool_decide (au_role u = TEACHER)).
  - destruct (teacherProfiles (db w) !! au_id u) as [teacherProfile|]; [|done].
    destruct (String.eqb _ _); [apply Hcreate | done].
  - apply Hcreate.
Qed.

End GenerateQrMore.

(** ** [POST /scan], all of its paths *)

Section ScanMore.
Variable jwt_verify : string → option string.
Variable setHours0 : Z → Z.

(** The route on any request: the gate, the validator, the handler. *)
Lemma run_scan req w :
  run (scan jwt_verify setHours0 req) w =
    match authenticated jwt_verify req (db w) with
    | None =>
        (Some (failure 401 "Access denied"
                 (if String.eqb (bearerToken req) "" then "No token provided"
                  else "Invalid token")), w)
    | Some u =>
        if bool_decide (au_role u = STUDENT) then
          if String.eqb (body_qrCode req) "" then
            (Some (validationError (add_error "qrCode" (set_user u req))), w)
          else run (scanHandler setHours0 (set_user u req)) w
        else (Some (failure 403 "Access denied" "Insufficient permissions"), w)
    end.
Proof.
  unfold scan. rewrite run_gate.
  destruct (authenticated jwt_verify req (db w)) as [u|]; [|reflexivity].
  assert (includes [STUDENT] (au_role u) = bool_decide (au_role u = STUDENT)) as ->
    by (by destruct (au_role u)).
  destruct (bool_decide (au_role u = STUDENT)); [|reflexivity].
  rewrite run_route_cons. unfold notEmpty. cbn [body_qrCode set_user].
  destruct (String.eqb (body_qrCode req) ""); cbn [run next route]; [|reflexivity].
  rewrite run_scanHandler_invalid; [reflexivity|].
  cbn. by destruct (req_errors req).
Qed.

(** The one way in which a scan changes the tables. *)
Lemma scan_inserts req w :
  (db (run (scan jwt_verify setHours0 req) w).2 = db w
   ∧ ∀ response, (run (scan jwt_verify setHours0 req) w).1 = Some response →
                 status response ≠ 200%nat)
  ∨ ∃ u student qr,
      studentRequest jwt_verify req (db w) u
      ∧ studentProfile u = Some student
      ∧ qrCodes (db w) !! body_qrCode req = Some qr
      ∧ clock w (reads w) <= qr_expiresAt qr
      ∧ (sp_id student, qr_classId qr) ∈ enrollments (db w)
      ∧ ¬ markedToday (db w) (sp_id student) (qr_classId qr)
            (setHours0 (clock w (S (reads w))))
      ∧ run (scan jwt_verify setHours0 req) w =
          (Some match classes (db w) !! qr_classId qr with
                | Some class =>
                    {| status := 200;
                       body := ScanJson (clock w (S (S (reads w)))) PRESENT
                                 (class_name class) |}
                | None => markingFailed
                end,
           set_db
             (set_attendances
                (attendances (db w) ++
                 [scanned student (qr_classId qr) (clock w (S (S (reads w))))
                    (body_qrCode req)])
                (db w))
             (tick (tick (tick w)))).
Proof.
  rewrite run_scan.
  destruct (authenticated jwt_verify req (db w)) as [u|] eqn:Hu;
    [|left; split; [done | by intros ? [= <-]]].
  destruct (bool_decide (au_role u = STUDENT)) eqn:Hrole;
    [|left; split; [done | by intros ? [= <-]]].
  apply bool_decide_eq_true in Hrole.
  destruct (String.eqb_spec (body_qrCode req) "") as [|Hcode];
    [left; split; [done | by intros ? [= <-]]|].
  destruct (decide (req_errors (set_user u req) = [])) as [Herr|Herr];
    [|rewrite run_scanHandler_invalid by exact Herr;
      left; split; [done | by intros ? [= <-]]].
  rewrite run_scanHandler by exact Herr. cbn [body_qrCode set_user req_user].
  destruct (qrCodes (db w) !! body_qrCode req) as [qr|] eqn:Hqr;
    [|left; split; [done | by intros ? [= <-]]].
  destruct (Z.gtb_spec (clock w (reads w)) (qr_expiresAt qr));
    [left; split; [by destruct w | by intros ? [= <-]]|].
  cbn [mbind option_bind].
  destruct (studentProfile u) as [student|] eqn:Hst;
    [|left; split; [by destruct w | by intros ? [= <-]]].
  destruct (decide _) as [Henr|];
    [|left; split; [by destruct w | by intros ? [= <-]]].
  cbn zeta.
  destruct (List.find _ _) eqn:Hfind;
    [left; split; [by destruct w | by intros ? [= <-]]|].
  right. exists u, student, qr. split_and!; try done.
  - intros Hm. apply find_markedToday in Hm. rewrite Hfind in Hm.
    by destruct Hm.
  - by destruct (classes (db w) !! qr_classId qr).
Qed.

(** X8: A scan changes nothing but the attendance table, and the table only by
    one row at its end.  Whenever it does, the request had signed in a
    student with a profile, the scanned string was the key of a stored
    token that had not expired, the student was enrolled in the token's
    class and had no row for the class that day; the row is that student's,
    for that class, PRESENT, and carries the scanned string. *)
Theorem scan_changes_only_attendance req w :
  let d' := db (run (scan jwt_verify setHours0 req) w).2 in
  d' = db w
  ∨ ∃ u student qr,
      authenticated jwt_verify req (db w) = Some u
      ∧ au_role u = STUDENT
      ∧ studentProfile u = Some student
      ∧ qrCodes (db w) !! body_qrCode req = Some qr
      ∧ clock w (reads w) <= qr_expiresAt qr
      ∧ (sp_id student, qr_classId qr) ∈ enrollments (db w)
      ∧ ¬ markedToday (db w) (sp_id student) (qr_classId qr)
            (setHours0 (clock w (S (reads w))))
      ∧ d' = set_attendances
               (attendances (db w) ++
                [ {| att_studentId := sp_id student;
                     att_classId := qr_classId qr;
                     att_date := clock w (S (S (reads w)));
                     att_status := PRESENT;
                     att_qrCode := Some (body_qrCode req) |} ])
               (db w).
Proof.
  destruct (scan_inserts req w)
    as [[Hdb _] | (u & student & qr & Hreq & Hst & Hqr & Ht & Henr & Hm & Hrun)].
  - by left.
  - right. exists u, student, qr. destruct Hreq as (_ & _ & Hu & Hrole).
    split_and!; try done. by rewrite Hrun.
Qed.

(** X9: A student who scans a string that is not the key of a stored token is
    answered "Invalid QR code"; nothing changes, and the clock is not even
    read. *)
Theorem scan_invalidQrCode req w u :
  studentRequest jwt_verify req (db w) u →
  qrCodes (db w) !! body_qrCode req = None →
  run (scan jwt_verify setHours0 req) w = (Some invalidQrCode, w).
Proof.
  intros Hreq Hqr. rewrite (run_scan_student _ _ _ _ _ Hreq).
  rewrite run_scanHandler by apply Hreq. cbn [body_qrCode set_user].
  by rewrite Hqr.
Qed.

(** X10: A student who sends no token string is answered 400 with the one
    validation error of the field; the token table is never consulted. *)
Theorem scan_empty_qrCode req w u :
  authenticated jwt_verify req (db w) = Some u →
  au_role u = STUDENT →
  req_errors req = [] →
  body_qrCode req = "" →
  run (scan jwt_verify setHours0 req) w =
    (Some {| status := 400; body := ValidationJson ["qrCode"] |}, w)
  ∧ issued (scan jwt_verify setHours0 req) w = [UserFindUnique (au_id u)].
Proof.
  intros Hu Hrole Herr Hcode. split.
  - rewrite run_scan, Hu, Hrole, Hcode. cbn.
    unfold validationError. cbn. by rewrite Herr.
  - unfold scan. rewrite (issued_gate _ _ _ _ _ _ u Hu), Hrole. cbn [includes existsb].
    rewrite bool_decide_eq_true_2 by reflexivity. cbn [orb]. f_equal.
    rewrite issued_route_cons. unfold notEmpty. cbn [body_qrCode set_user].
    rewrite Hcode. cbn. unfold scanHandler. cbn. by rewrite Herr.
Qed.

(** X11: A student with a profile, enrolled in the class of a stored token that
    has not expired, and with no row for the class that day, is marked: the
    route answers 200 with the date, PRESENT and the name of the class, and
    appends the row.  (The class row is there to be named.) *)
Theorem scan_marks req w u student qr class :
  studentRequest jwt_verify req (db w) u →
  studentProfile u = Some student →
  qrCodes (db w) !! body_qrCode req = Some qr →
  classes (db w) !! qr_classId qr = Some class →
  clock w (reads w) <= qr_expiresAt qr →
  (sp_id student, qr_classId qr) ∈ enrollments (db w) →
  ¬ markedToday (db w) (sp_id student) (qr_classId qr)
      (setHours0 (clock w (S (reads w)))) →
  run (scan jwt_verify setHours0 req) w =
    (Some {| status := 200;
             body := ScanJson (clock w (S (S (reads w)))) PRESENT
                       (class_name class) |},
     set_db
       (set_attendances
          (attendances (db w) ++
           [scanned student (qr_classId qr) (clock w (S (S (reads w))))
              (body_qrCode req)])
          (db w))
       (tick (tick (tick w)))).
Proof.
  intros Hreq Hst Hqr Hclass Ht Henr Hm.
  rewrite (run_scan_student _ _ _ _ _ Hreq).
  rewrite run_scanHandler by apply Hreq. cbn [body_qrCode set_user req_user].
  rewrite Hqr.
  destruct (Z.gtb_spec (clock w (reads w)) (qr_expiresAt qr)); [lia|].
  cbn [mbind option_bind]. rewrite Hst, decide_True by exact Henr. cbn zeta.
  by rewrite (find_not_markedToday _ _ _ _ Hm), Hclass.
Qed.

(** X12: Marked once, refused the second time: after a scan that was answered
    200, the same request sent again while the tables are as the first scan
    left them, before the token expires and on the day of the first scan (the
    row's date lies in the 24 hours from the local midnight of the second
    scan), is answered "Attendance already marked" and adds no row. *)
Theorem scan_twice req w response w1 w2 qr :
  run (scan jwt_verify setHours0 req) w = (Some response, w1) →
  status response = 200%nat →
  db w2 = db w1 →
  qrCodes (db w) !! body_qrCode req = Some qr →
  clock w2 (reads w2) <= qr_expiresAt qr →
  setHours0 (clock w2 (S (reads w2))) <= clock w (S (S (reads w)))
    < setHours0 (clock w2 (S (reads w2))) + DAY →
  run (scan jwt_verify setHours0 req) w2 = (Some alreadyMarked, tick (tick w2)).
Proof.
  intros Hrun Hok Hdb Hqr Ht Hday.
  destruct (scan_inserts req w)
    as [[_ Hno] | (u & student & qr' & Hreq & Hst & Hqr' & _ & Henr & _ & Hrun')].
  { exfalso. eapply Hno; [by rewrite Hrun | exact Hok]. }
  rewrite Hqr in Hqr'. injection Hqr' as <-.
  rewrite Hrun in Hrun'. injection Hrun' as _ ->.
  cbn [db set_db] in Hdb.
  assert (studentRequest jwt_verify req (db w2) u) as Hreq2.
  { rewrite Hdb. exact Hreq. }
  rewrite (run_scan_student _ _ _ _ _ Hreq2).
  rewrite run_scanHandler by apply Hreq. cbn [body_qrCode set_user req_user].
  rewrite Hdb. cbn [qrCodes enrollments attendances set_attendances].
  rewrite Hqr.
  destruct (Z.gtb_spec (clock w2 (reads w2)) (qr_expiresAt qr)); [lia|].
  cbn [mbind option_bind]. rewrite Hst, decide_True by exact Henr. cbn zeta.
  rewrite find_app.
  destruct (List.find _ (attendances (db w))); [reflexivity|].
  cbn. unfold attendanceMatches. cbn.
  rewrite !bool_decide_eq_true_2 by reflexivity. cbn.
  rewrite (proj2 (Z.leb_le _ _)), (proj2 (Z.ltb_lt _ _)) by lia.
  reflexivity.
Qed.

End ScanMore.

(** ** Issuing and redeeming *)

Section IssueRedeem.
Variable jwt_verify : string → option string.
Variable setHours0 : Z → Z.

Lemma qrCodeData_not_empty classId now suffix :
  qrCodeData classId now suffix ≠ "".
Proof. unfold qrCodeData. by destruct classId. Qed.

(** What a 200 from [POST /generate-qr] says about the tables. *)
Lemma run_generateQr_200 req w code expiresAt w' :
  run (generateQr jwt_verify req) w =
    (Some {| status := 200; body := QrJson code expiresAt |}, w') →
  is_Some (classes (db w) !! body_classId req)
  ∧ code ≠ ""
  ∧ db w' =
      set_qrCodes
        (<[code := {| qr_classId := body_classId req; qr_code := code;
                      qr_expiresAt := expiresAt |}]> (qrCodes (db w)))
        (db w).
Proof.
  unfold generateQr. rewrite run_gate.
  destruct (authenticated jwt_verify req (db w)) as [u|]; [|intros [=]].
  destruct (includes [TEACHER; ADMIN] (au_role u)); [|intros [=]].
  rewrite run_route_cons. unfold notEmpty.
  destruct (String.eqb (body_classId (set_user u req)) ""); cbn [run next route].
  { rewrite run_generateQrHandler_invalid; [intros [=]|].
    cbn. by destruct (req_errors req). }
  destruct (decide (req_errors (set_user u req) = [])) as [Herr|Herr];
    [|rewrite run_generateQrHandler_invalid by exact Herr; intros [=]].
  rewrite run_generateQrHandler by exact Herr.
  cbn [body_classId set_user req_user].
  destruct (classes (db w) !! body_classId req) as [classData|]; [|intros [=]].
  cbn zeta.
  destruct (bool_decide (au_role u = TEACHER)).
  - destruct (teacherProfiles (db w) !! au_id u) as [teacherProfile|]; [|intros [=]].
    destruct (String.eqb _ _); [|intros [=]].
    destruct (qrCodes (db w) !! _); [intros [=]|]. intros [= <- <- <-].
    split_and!; [eauto | apply qrCodeData_not_empty | reflexivity].
  - destruct (qrCodes (db w) !! _); [intros [=]|]. intros [= <- <- <-].
    split_and!; [eauto | apply qrCodeData_not_empty | reflexivity].
Qed.

(** X13: A code that has been issued redeems: after [POST /generate-qr] has
    answered 200 with a code, and for as long as the tables are as it left
    them, a student with a profile who is enrolled in the class the code was
    asked for, has no row for it that day and scans the code before it
    expires is answered 200 and marked PRESENT for that class. *)
Theorem issue_then_scan issueReq w code expiresAt w1 scanReq w2 u student :
  run (generateQr jwt_verify issueReq) w =
    (Some {| status := 200; body := QrJson code expiresAt |}, w1) →
  db w2 = db w1 →
  req_errors scanReq = [] →
  body_qrCode scanReq = code →
  authenticated jwt_verify scanReq (db w2) = Some u →
  au_role u = STUDENT →
  studentProfile u = Some student →
  (sp_id student, body_classId issueReq) ∈ enrollments (db w2) →
  clock w2 (reads w2) <= expiresAt →
  ¬ markedToday (db w2) (sp_id student) (body_classId issueReq)
      (setHours0 (clock w2 (S (reads w2)))) →
  ∃ className,
    run (scan jwt_verify setHours0 scanReq) w2 =
      (Some {| status := 200;
               body := ScanJson (clock w2 (S (S (reads w2)))) PRESENT className |},
       set_db
         (set_attendances
            (attendances (db w2) ++
             [scanned student (body_classId issueReq)
                (clock w2 (S (S (reads w2)))) code])
            (db w2))
         (tick (tick (tick w2)))).
Proof.
  intros Hissue Hdb Herr Hcode Hu Hrole Hst Henr Ht Hm.
  apply run_generateQr_200 in Hissue as ([classData Hclass] & Hne & Hdb1).
  rewrite Hdb1 in Hdb.
  assert (studentRequest jwt_verify scanReq (db w2) u) as Hreq
    by (split_and!; [done | by rewrite Hcode | done | done]).
  exists (class_name classData).
  rewrite (run_scan_student _ _ _ _ _ Hreq).
  rewrite run_scanHandler by exact Herr. cbn [body_qrCode set_user req_user].
  rewrite Hcode.
  assert (qrCodes (db w2) !! code =
            Some {| qr_classId := body_classId issueReq; qr_code := code;
                    qr_expiresAt := expiresAt |}) as ->
    by (rewrite Hdb; cbn; apply lookup_insert_eq).
  cbn [qr_expiresAt qr_classId].
  destruct (Z.gtb_spec (clock w2 (reads w2)) expiresAt); [lia|].
  cbn [mbind option_bind]. rewrite Hst, decide_True by exact Henr. cbn zeta.
  rewrite (find_not_markedToday _ _ _ _ Hm).
  assert (classes (db w2) !! body_classId issueReq = Some classData) as ->
    by (rewrite Hdb; exact Hclass).
  reflexivity.
Qed.

End IssueRedeem.

(** ** The gate of the registry routes *)

Section Guarded.
Variable jwt_verify : string → option string.

(** [route] is [through] followed by the handler. *)
Lemma run_route_through middlewares handler req w :
  run (route middlewares handler req) w =
    match run (through middlewares req) w with
    | (Some (inl response), w') => (Some response, w')
    | (Some (inr req'), w') => run (handler req') w'
    | (None, w') => (None, w')
    end.
Proof.
  revert req w; induction middlewares as [|m rest IH]; intros req w.
  - reflexivity.
  - cbn [route through]. rewrite !run_bind.
    destruct (run (m req) w) as [[[response|req']|] w']; [reflexivity| |reflexivity].
    apply IH.
Qed.

Lemma run_through_gate roles rest req w :
  run (through (authenticateToken jwt_verify :: authorizeRoles roles :: rest) req) w =
    match authenticated jwt_verify req (db w) with
    | None =>
        (Some (inl (failure 401 "Access denied"
                      (if String.eqb (bearerToken req) "" then "No token provided"
                       else "Invalid token"))), w)
    | Some u =>
        if includes roles (au_role u)
        then run (through rest (set_user u req)) w
        else (Some (inl (failure 403 "Access denied" "Insufficient permissions")), w)
    end.
Proof.
  cbn [through]. rewrite run_bind, run_authenticateToken.
  destruct (authenticated jwt_verify req (db w)) as [u|]; [|reflexivity].
  rewrite run_bind, (run_authorizeRoles roles _ w u) by reflexivity.
  destruct (includes roles (au_role u)); reflexivity.
Qed.

Lemma guarded_staff rest handler req w u :
  staffRequest jwt_verify req (db w) u →
  guarded (authenticateToken jwt_verify :: authorizeRoles [ADMIN; TEACHER] :: rest)
    handler req w =
  guarded rest handler (set_user u req) w.
Proof.
  intros (_ & Hu & Hrole). unfold guarded, andThen.
  rewrite run_through_gate, Hu.
  by destruct (au_role u).
Qed.

Lemma guarded_staff' rest handler req w u :
  staffRequest jwt_verify req (db w) u →
  guarded (authenticateToken jwt_verify :: authorizeRoles [TEACHER; ADMIN] :: rest)
    handler req w =
  guarded rest handler (set_user u req) w.
Proof.
  intros (_ & Hu & Hrole). unfold guarded, andThen.
  rewrite run_through_gate, Hu.
  by destruct (au_role u).
Qed.

End Guarded.

Lemma studentProfileFindUnique_hasStudent d id :
  is_Some (List.find (λ sp, bool_decide (sp_id sp = id))
             (map_to_list (studentProfiles d)).*2)
  ↔ hasStudent d id.
Proof.
  unfold hasStudent. split.
  - intros [sp Hsp]. apply find_some in Hsp as [Hin Heq].
    apply bool_decide_eq_true in Heq.
    apply list_elem_of_In, list_elem_of_fmap in Hin as ([userId sp'] & -> & Hin).
    apply elem_of_map_to_list in Hin. eauto.
  - intros (userId & sp & Hsp & Hid).
    destruct (List.find _ _) eqn:E; [eauto|]. exfalso.
    eapply find_none in E.
    + apply bool_decide_eq_false in E. apply E, Hid.
    + apply list_elem_of_In, list_elem_of_fmap. exists (userId, sp).
      split; [reflexivity | by apply elem_of_map_to_list].
Qed.

(** ** [POST /classes/:id/enroll] and [DELETE /classes/:id/enroll/:studentId] *)

Section Enrollment.
Variable jwt_verify : string → option string.
Variable setHours0 : Z → Z.

(** The handler, branch by branch, once validation has passed. *)
Lemma enrollHandler_cases studentId req w :
  req_errors req = [] →
  enrollHandler studentId req w =
    match classes (db w) !! params_id req with
    | None =>
        (Some (Plain (failure 404 "Class not found"
                        "The specified class does not exist")), w)
    | Some _ =>
        match List.find (λ sp, bool_decide (sp_id sp = studentId))
                (map_to_list (studentProfiles (db w))).*2 with
        | None =>
            (Some (Plain (failure 404 "Student not found"
                            "The specified student does not exist")), w)
        | Some _ =>
            if decide ((studentId, params_id req) ∈ enrollments (db w)) then
              (Some (Plain (failure 400 "Already enrolled"
                              "Student is already enrolled in this class")), w)
            else
              (Some (Created {| enr_studentId := studentId;
                                enr_classId := params_id req |}),
               set_db (set_enrollments
                         ({[ (studentId, params_id req) ]} ∪ enrollments (db w))
                         (db w)) w)
        end
    end.
Proof.
  intros Herr.
  unfold enrollHandler, orElse, andThen, stored, ret, enrollmentCreate.
  rewrite Herr. destruct w as [d c n rnd m]; cbn.
  destruct (classes d !! params_id req); cbn; [|reflexivity].
  destruct (List.find _ _); cbn; [|reflexivity].
  destruct (decide ((studentId, params_id req) ∈ enrollments d)); cbn;
    [reflexivity|].
  destruct (decide _); [contradiction | reflexivity].
Qed.

Lemma enroll_staff studentId req w u :
  staffRequest jwt_verify req (db w) u →
  studentId ≠ "" →
  enroll jwt_verify studentId req w = enrollHandler studentId (set_user u req) w.
Proof.
  intros Hreq Hid. unfold enroll. rewrite (guarded_staff _ _ _ _ _ _ Hreq).
  unfold guarded, andThen, notEmpty. cbn.
  by destruct (String.eqb_spec studentId "").
Qed.

(** X14: A teacher or an administrator enrols a student in a class: when the
    class and the student exist and the pair is not yet enrolled, the route
    answers 201 and the pair is added to the enrollments, nothing else
    changing.  Any teacher may do so, not only the teacher of the class. *)
Theorem enroll_adds studentId req w u :
  staffRequest jwt_verify req (db w) u →
  studentId ≠ "" →
  is_Some (classes (db w) !! params_id req) →
  hasStudent (db w) studentId →
  (studentId, params_id req) ∉ enrollments (db w) →
  enroll jwt_verify studentId req w =
    (Some (Created {| enr_studentId := studentId; enr_classId := params_id req |}),
     set_db (set_enrollments
               ({[ (studentId, params_id req) ]} ∪ enrollments (db w)) (db w)) w).
Proof.
  intros Hreq Hid [classData Hclass] Hst Hnew.
  rewrite (enroll_staff _ _ _ _ Hreq Hid).
  rewrite enrollHandler_cases by apply Hreq. cbn [params_id set_user].
  rewrite Hclass.
  apply studentProfileFindUnique_hasStudent in Hst as [sp ->].
  by rewrite decide_False.
Qed.

(** X15: A pair that is already enrolled is refused with 400 "Already enrolled";
    nothing changes. *)
Theorem enroll_already_enrolled studentId req w u :
  staffRequest jwt_verify req (db w) u →
  studentId ≠ "" →
  is_Some (classes (db w) !! params_id req) →
  hasStudent (db w) studentId →
  (studentId, params_id req) ∈ enrollments (db w) →
  enroll jwt_verify studentId req w =
    (Some (Plain (failure 400 "Already enrolled"
                    "Student is already enrolled in this class")), w).
Proof.
  intros Hreq Hid [classData Hclass] Hst Hold.
  rewrite (enroll_staff _ _ _ _ Hreq Hid).
  rewrite enrollHandler_cases by apply Hreq. cbn [params_id set_user].
  rewrite Hclass.
  apply studentProfileFindUnique_hasStudent in Hst as [sp ->].
  by rewrite decide_True.
Qed.

(** X16: A class or a student that does not exist is refused with 404, the
    class being looked up first; nothing changes. *)
Theorem enroll_unknown studentId req w u :
  staffRequest jwt_verify req (db w) u →
  studentId ≠ "" →
  (classes (db w) !! params_id req = None →
     enroll jwt_verify studentId req w =
       (Some (Plain (failure 404 "Class not found"
                       "The specified class does not exist")), w))
  ∧ (is_Some (classes (db w) !! params_id req) → ¬ hasStudent (db w) studentId →
     enroll jwt_verify studentId req w =
       (Some (Plain (failure 404 "Student not found"
                       "The specified student does not exist")), w)).
Proof.
  intros Hreq Hid. rewrite (enroll_staff _ _ _ _ Hreq Hid).
  rewrite enrollHandler_cases by apply Hreq. cbn [params_id set_user].
  split.
  - by intros ->.
  - intros [classData ->] Hst.
    destruct (List.find _ _) eqn:E; [|reflexivity].
    exfalso. apply Hst, studentProfileFindUnique_hasStudent. rewrite E; eauto.
Qed.

Lemma unenrollHandler_cases studentId req w :
  unenrollHandler studentId req w =
    if decide ((studentId, params_id req) ∈ enrollments (db w)) then
      (Some (Plain {| status := 200;
                      body := MessageJson "Student removed from class successfully" |}),
       set_db (set_enrollments
                 (enrollments (db w) ∖ {[ (studentId, params_id req) ]}) (db w)) w)
    else
      (Some (Plain (failure 500 "Enrollment removal failed"
                      "Failed to remove student from class")), w).
Proof.
  unfold unenrollHandler, orElse, andThen, stored, ret, enrollmentDelete.
  destruct w as [d c n rnd m]; cbn.
  destruct (decide ((studentId, params_id req) ∈ enrollments d)); reflexivity.
Qed.

(** X17: Removing a student from a class: an enrolled pair is removed and the
    route answers 200, nothing else changing; for a pair that is not
    enrolled the storage call fails, the route answers 500 and nothing
    changes. *)
Theorem unenroll_removes studentId req w u :
  staffRequest jwt_verify req (db w) u →
  ((studentId, params_id req) ∈ enrollments (db w) →
     unenroll jwt_verify studentId req w =
       (Some (Plain {| status := 200;
                       body := MessageJson "Student removed from class successfully" |}),
        set_db (set_enrollments
                  (enrollments (db w) ∖ {[ (studentId, params_id req) ]}) (db w)) w))
  ∧ ((studentId, params_id req) ∉ enrollments (db w) →
     unenroll jwt_verify studentId req w =
       (Some (Plain (failure 500 "Enrollment removal failed"
                       "Failed to remove student from class")), w)).
Proof.
  intros Hreq. unfold unenroll. rewrite (guarded_staff _ _ _ _ _ _ Hreq).
  unfold guarded, andThen. cbn [through run next].
  rewrite unenrollHandler_cases. cbn [params_id set_user].
  split; intros H; [by rewrite decide_True | by rewrite decide_False].
Qed.

Lemma enrollHandler_invalid studentId req w :
  req_errors req ≠ [] →
  enrollHandler studentId req w = (Some (Plain (validationError req)), w).
Proof.
  intros Herr. unfold enrollHandler, orElse.
  rewrite bool_decide_eq_false_2 by exact Herr. reflexivity.
Qed.

(** What a 201 from the enrolling route says. *)
Lemma enroll_created studentId req w enrollment w1 :
  enroll jwt_verify studentId req w = (Some (Created enrollment), w1) →
  ∃ u, authenticated jwt_verify req (db w) = Some u
       ∧ au_role u ≠ STUDENT
       ∧ is_Some (classes (db w) !! params_id req)
       ∧ ((studentId, params_id req) ∉ enrollments (db w))
       ∧ w1 = set_db (set_enrollments
                        ({[ (studentId, params_id req) ]} ∪ enrollments (db w))
                        (db w)) w.
Proof.
  unfold enroll, guarded, andThen. rewrite run_through_gate.
  destruct (authenticated jwt_verify req (db w)) as [u|]; [|intros [=]].
  destruct (includes [ADMIN; TEACHER] (au_role u)) eqn:Hrole; [|intros [=]].
  cbn [through]. rewrite run_bind. unfold notEmpty.
  destruct (String.eqb studentId ""); cbn [run next].
  { rewrite enrollHandler_invalid; [intros [=]|].
    cbn. by destruct (req_errors req). }
  destruct (decide (req_errors (set_user u req) = [])) as [Herr|Herr];
    [|rewrite enrollHandler_invalid by exact Herr; intros [=]].
  rewrite enrollHandler_cases by exact Herr. cbn [params_id set_user].
  destruct (classes (db w) !! params_id req) eqn:Hclass; [|intros [=]].
  destruct (List.find _ _); [|intros [=]].
  destruct (decide _) as [|Hnew]; [intros [=]|].
  intros [= <- <-]. exists u. split_and!; try done.
  intros E. by rewrite E in Hrole.
Qed.

(** X18: Enrolling and then removing leaves the tables exactly as they were:
    after the enrolling route has answered 201, the same user removing the
    same student from the same class is answered 200 and the world is the
    one before the enrollment. *)
Theorem enroll_then_unenroll studentId req w w1 enrollment :
  enroll jwt_verify studentId req w = (Some (Created enrollment), w1) →
  unenroll jwt_verify studentId req w1 =
    (Some (Plain {| status := 200;
                    body := MessageJson "Student removed from class successfully" |}),
     w).
Proof.
  intros (u & Hu & Hrole & _ & Hnew & ->)%enroll_created.
  unfold unenroll, guarded, andThen. rewrite run_through_gate.
  cbn [db set_db]. change (authenticated jwt_verify req (set_enrollments _ (db w)))
    with (authenticated jwt_verify req (db w)). rewrite Hu.
  assert (includes [ADMIN; TEACHER] (au_role u) = true) as ->
    by (by destruct (au_role u)).
  cbn [through run next].
  rewrite unenrollHandler_cases.
  cbn [params_id set_user db set_db enrollments set_enrollments].
  rewrite decide_True by (apply elem_of_union_l; by apply elem_of_singleton).
  destruct w as [d ck n rnd m]. destruct d as [us sps tps aps cls qrs ens ats].
  cbn in *. unfold set_db, set_enrollments. cbn.
  assert (({[(studentId, params_id req)]} ∪ ens) ∖ {[(studentId, params_id req)]} = ens)
    as ->.
  { rewrite difference_union_distr_l_L, difference_diag_L, union_empty_l_L.
    by apply difference_disjoint_L, disjoint_singleton_r. }
  reflexivity.
Qed.

(** X19: An enrolled student can be marked: after the enrolling route has
    answered 201 for a student and a class, and for as long as the tables
    are as it left them, the student's scan of a stored, unexpired token of
    that class, with no row for the class that day, is answered 200. *)
Theorem enroll_then_scan studentId enrollReq w enrollment w1
    scanReq w2 u student qr :
  enroll jwt_verify studentId enrollReq w = (Some (Created enrollment), w1) →
  db w2 = db w1 →
  studentRequest jwt_verify scanReq (db w2) u →
  studentProfile u = Some student →
  sp_id student = studentId →
  qrCodes (db w2) !! body_qrCode scanReq = Some qr →
  qr_classId qr = params_id enrollReq →
  clock w2 (reads w2) <= qr_expiresAt qr →
  ¬ markedToday (db w2) studentId (params_id enrollReq)
      (setHours0 (clock w2 (S (reads w2)))) →
  ∃ className,
    run (scan jwt_verify setHours0 scanReq) w2 =
      (Some {| status := 200;
               body := ScanJson (clock w2 (S (S (reads w2)))) PRESENT className |},
       set_db
         (set_attendances
            (attendances (db w2) ++
             [scanned student (params_id enrollReq)
                (clock w2 (S (S (reads w2)))) (body_qrCode scanReq)])
            (db w2))
         (tick (tick (tick w2)))).
Proof.
  intros (eu & _ & _ & [classData Hclass] & _ & ->)%enroll_created
    Hdb Hreq Hst Hid Hqr Hcls Ht Hm.
  cbn [db set_db] in Hdb. exists (class_name classData).
  rewrite (run_scan_student _ _ _ _ _ Hreq).
  rewrite run_scanHandler by apply Hreq. cbn [body_qrCode set_user req_user].
  rewrite Hqr, Hcls.
  destruct (Z.gtb_spec (clock w2 (reads w2)) (qr_expiresAt qr)); [lia|].
  cbn [mbind option_bind]. rewrite Hst, Hid.
  rewrite decide_True
    by (rewrite Hdb; cbn; apply elem_of_union_l; by apply elem_of_singleton).
  cbn zeta. rewrite (find_not_markedToday _ _ _ _ Hm).
  assert (classes (db w2) !! params_id enrollReq = Some classData) as ->
    by (rewrite Hdb; exact Hclass).
  reflexivity.
Qed.

(** What a 200 from the removing route says. *)
Lemma unenroll_removed studentId req w w1 :
  unenroll jwt_verify studentId req w =
    (Some (Plain {| status := 200;
                    body := MessageJson "Student removed from class successfully" |}),
     w1) →
  w1 = set_db (set_enrollments
                 (enrollments (db w) ∖ {[ (studentId, params_id req) ]}) (db w)) w.
Proof.
  unfold unenroll, guarded, andThen. rewrite run_through_gate.
  destruct (authenticated jwt_verify req (db w)) as [u|]; [|intros [=]].
  destruct (includes [ADMIN; TEACHER] (au_role u)); [|intros [=]].
  cbn [through run next]. rewrite unenrollHandler_cases. cbn [params_id set_user].
  destruct (decide _); [|intros [=]]. by intros [= <-].
Qed.

(** X20: A removed student can no longer be marked: after the removing route has
    answered 200, and for as long as the tables are as it left them, the
    student's scan of a stored, unexpired token of that class is answered
    "You are not enrolled in this class", whether or not the student has
    been marked that day. *)
Theorem unenroll_then_scan studentId removeReq w w1 scanReq w2 u student qr :
  unenroll jwt_verify studentId removeReq w =
    (Some (Plain {| status := 200;
                    body := MessageJson "Student removed from class successfully" |}),
     w1) →
  db w2 = db w1 →
  studentRequest jwt_verify scanReq (db w2) u →
  studentProfile u = Some student →
  sp_id student = studentId →
  qrCodes (db w2) !! body_qrCode scanReq = Some qr →
  qr_classId qr = params_id removeReq →
  clock w2 (reads w2) <= qr_expiresAt qr →
  run (scan jwt_verify setHours0 scanReq) w2 = (Some notEnrolled, tick w2).
Proof.
  intros ->%unenroll_removed Hdb Hreq Hst Hid Hqr Hcls Ht.
  cbn [db set_db] in Hdb.
  rewrite (run_scan_student _ _ _ _ _ Hreq).
  rewrite run_scanHandler by apply Hreq. cbn [body_qrCode set_user req_user].
  rewrite Hqr, Hcls.
  destruct (Z.gtb_spec (clock w2 (reads w2)) (qr_expiresAt qr)); [lia|].
  cbn [mbind option_bind]. rewrite Hst, Hid.
  rewrite decide_False; [reflexivity|].
  rewrite Hdb. cbn. intros [_ Hn]%elem_of_difference.
  apply Hn. by apply elem_of_singleton.
Qed.

End Enrollment.

(** ** [GET /attendance/class/:classId] *)

Section ClassAttendance.
Variable jwt_verify : string → option string.
Variable setHours0 : Z → Z.
Variable parseDate : string → option Z.

Lemma countStatus_total (summary : list (string * AttendanceStatus)) :
  Z.of_nat (length summary) =
    countStatus PRESENT summary + countStatus ABSENT summary
    + countStatus LATE summary.
Proof.
  unfold countStatus. induction summary as [|[studentId status] l IH]; [reflexivity|].
  rewrite !filter_cons. cbn [snd length].
  destruct status; repeat case_decide; try done; cbn [length]; lia.
Qed.

Lemma find_filter {X : Type} (P : X → Prop) `{!∀ x, Decision (P x)}
    (f : X → bool) (l : list X) :
  List.find f (filter P l) = List.find (λ x, bool_decide (P x) && f x) l.
Proof.
  induction l as [|x l IH]; [reflexivity|].
  rewrite filter_cons. cbn [List.find]. destruct (decide (P x)) as [Hx|Hx].
  - rewrite (bool_decide_eq_true_2 _ Hx). cbn. by rewrite IH.
  - rewrite (bool_decide_eq_false_2 _ Hx). cbn. exact IH.
Qed.

(** The status reported for a student is decided by the first row that the
    [findFirst] of [POST /scan] would find for the student, the class and
    the day. *)
Lemma statusOf_attendanceMatches d classId date studentId :
  statusOf
    (filter (λ a, att_classId a = classId ∧ date <= att_date a < date + DAY)
       (attendances d)) studentId =
    match List.find (attendanceMatches studentId classId date (date + DAY))
            (attendances d) with
    | Some attendance => att_status attendance
    | None => ABSENT
    end.
Proof.
  unfold statusOf. rewrite find_filter.
  assert (∀ l, List.find
                 (λ a, bool_decide (att_classId a = classId
                                    ∧ date <= att_date a < date + DAY)
                       && bool_decide (att_studentId a = studentId)) l =
               List.find (attendanceMatches studentId classId date (date + DAY)) l)
    as ->; [|reflexivity].
  intros l. induction l as [|a l IH]; [reflexivity|]. cbn [List.find].
  rewrite IH. unfold attendanceMatches.
  assert (∀ b1 b2 : bool, (b1 = true ↔ b2 = true) → b1 = b2) as Hbool
    by (intros [] [] [H1 H2]; auto; symmetry; auto).
  rewrite (Hbool
             (bool_decide (att_classId a = classId ∧ date <= att_date a < date + DAY)
              && bool_decide (att_studentId a = studentId))
             (bool_decide (att_studentId a = studentId)
              && bool_decide (att_classId a = classId)
              && (date <=? att_date a) && (att_date a <? date + DAY)));
    [reflexivity|].
  rewrite !andb_true_iff, !bool_decide_eq_true, Z.leb_le, Z.ltb_lt. tauto.
Qed.

(** The day reported on, and the world after it has been determined:
    today, by a clock read, when no date is given; the given date
    otherwise. *)
Lemma classAttendanceHandler_cases classId date req w :
  classAttendanceHandler setHours0 parseDate classId date req w =
    match classes (db w) !! classId with
    | None =>
        (Some (Plain (failure 404 "Class not found"
                        "The specified class does not exist")), w)
    | Some classData =>
        let report :=
          let target :=
            match date with
            | None | Some "" => (Some (clock w (reads w)), tick w)
            | Some date => (parseDate date, w)
            end in
          match target.1 with
          | None =>
              (Some (Plain (failure 500 "Attendance retrieval failed"
                              "Failed to retrieve class attendance")), target.2)
          | Some instant =>
              let targetDate := setHours0 instant in
              let attendances :=
                filter (λ a, att_classId a = classId
                             ∧ targetDate <= att_date a < targetDate + DAY)
                  (attendances (db w)) in
              let summary :=
                (λ studentId, (studentId, statusOf attendances studentId))
                  <$> (elements (filter (λ e, e.2 = classId) (enrollments (db w)))).*1 in
              (Some (ClassReport targetDate summary
                       (Z.of_nat (length summary))
                       (countStatus PRESENT summary)
                       (countStatus ABSENT summary)
                       (countStatus LATE summary)), target.2)
          end in
        match req_user req with
        | None =>
            (Some (Plain (failure 500 "Attendance retrieval failed"
                            "Failed to retrieve class attendance")), w)
        | Some user =>
            if bool_decide (au_role user = TEACHER) then
              match teacherProfiles (db w) !! au_id user with
              | None =>
                  (Some (Plain (failure 403 "Access denied"
                                  "You can only view attendance for your own classes")), w)
              | Some teacherProfile =>
                  if String.eqb (tp_id teacherProfile) (class_teacherId classData)
                  then report
                  else (Some (Plain (failure 403 "Access denied"
                                       "You can only view attendance for your own classes")), w)
              end
            else report
        end
    end.
Proof.
  unfold classAttendanceHandler, orElse, andThen, stored, ret, raise, clockRead,
    attendanceFindManyOn, enrollmentFindMany.
  destruct w as [d c n rnd m]; cbn.
  destruct (classes d !! classId) as [classData|]; cbn; [|reflexivity].
  destruct (req_user req) as [user|]; cbn; [|reflexivity].
  destruct (bool_decide (au_role user = TEACHER)); cbn.
  - destruct (teacherProfiles d !! au_id user) as [teacherProfile|]; cbn;
      [|reflexivity].
    destruct (String.eqb (tp_id teacherProfile) (class_teacherId classData)); cbn;
      [|reflexivity].
    destruct date as [[|ch date]|]; cbn; try reflexivity.
    destruct (parseDate (String ch date)); reflexivity.
  - destruct date as [[|ch date]|]; cbn; try reflexivity.
    destruct (parseDate (String ch date)); reflexivity.
Qed.

(** What the route answers to someone in charge of the class, for a day
    that can be determined. *)
Lemma classAttendance_staff classId date req w u classData day :
  staffRequest jwt_verify req (db w) u →
  classes (db w) !! classId = Some classData →
  inCharge (db w) u classData →
  reportDay setHours0 parseDate date w = Some day →
  let summary :=
    (λ studentId,
       (studentId,
        statusOf
          (filter (λ a, att_classId a = classId ∧ day <= att_date a < day + DAY)
             (attendances (db w))) studentId))
      <$> (elements (filter (λ e, e.2 = classId) (enrollments (db w)))).*1 in
  ∃ w',
    classAttendance jwt_verify setHours0 parseDate classId date req w =
      (Some (ClassReport day summary (Z.of_nat (length summary))
               (countStatus PRESENT summary) (countStatus ABSENT summary)
               (countStatus LATE summary)), w')
    ∧ db w' = db w.
Proof.
  intros Hstaff Hclass Hin Hday summary. unfold classAttendance.
  rewrite (guarded_staff' jwt_verify _ _ _ _ u Hstaff).
  unfold guarded, andThen. cbn [through run next].
  rewrite classAttendanceHandler_cases, Hclass. cbn [req_user set_user].
  destruct Hstaff as (_ & _ & Hrole). unfold inCharge in Hin.
  assert (∃ w',
            (let target :=
               match date with
               | None | Some "" => (Some (clock w (reads w)), tick w)
               | Some date => (parseDate date, w)
               end in
             match target.1 with
             | None =>
                 (Some (Plain (failure 500 "Attendance retrieval failed"
                                 "Failed to retrieve class attendance")), target.2)
             | Some instant =>
                 let targetDate := setHours0 instant in
                 let attendances :=
                   filter (λ a, att_classId a = classId
                                ∧ targetDate <= att_date a < targetDate + DAY)
                     (attendances (db w)) in
                 let summary :=
                   (λ studentId, (studentId, statusOf attendances studentId))
                     <$> (elements (filter (λ e, e.2 = classId)
                                      (enrollments (db w)))).*1 in
                 (Some (ClassReport targetDate summary
                          (Z.of_nat (length summary))
                          (countStatus PRESENT summary)
                          (countStatus ABSENT summary)
                          (countStatus LATE summary)), target.2)
             end) =
            (Some (ClassReport day summary (Z.of_nat (length summary))
                     (countStatus PRESENT summary) (countStatus ABSENT summary)
                     (countStatus LATE summary)), w')
            ∧ db w' = db w) as Hreport.
  { unfold reportDay in Hday.
    destruct date as [[|c date]|]; cbn in Hday |- *.
    - injection Hday as <-. exists (tick w). split; [reflexivity | by destruct w].
    - destruct (parseDate (String c date)) as [instant|]; [|discriminate].
      injection Hday as <-. by exists w.
    - injection Hday as <-. exists (tick w). split; [reflexivity | by destruct w]. }
  cbn zeta.
  destruct (au_role u); [done | | exact Hreport].
  rewrite (bool_decide_eq_true_2 (TEACHER = TEACHER) eq_refl).
  destruct (teacherProfiles (db w) !! au_id u) as [teacherProfile|]; [|done].
  rewrite (proj2 (String.eqb_eq _ _) Hin). exact Hreport.
Qed.

(** X21: A class report lists each student enrolled in the class once, and
    nobody else; its total is the number of students listed, which is the
    sum of its three tallies; producing it leaves every table as it was. *)
Theorem classAttendance_roll classId date req w u classData day :
  staffRequest jwt_verify req (db w) u →
  classes (db w) !! classId = Some classData →
  inCharge (db w) u classData →
  reportDay setHours0 parseDate date w = Some day →
  ∃ summary present absent late w',
    classAttendance jwt_verify setHours0 parseDate classId date req w =
      (Some (ClassReport day summary (present + absent + late)
               present absent late), w')
    ∧ db w' = db w
    ∧ NoDup summary.*1
    ∧ (∀ studentId,
         studentId ∈ summary.*1 ↔ (studentId, classId) ∈ enrollments (db w))
    ∧ present + absent + late = Z.of_nat (length summary)
    ∧ present = countStatus PRESENT summary
    ∧ absent = countStatus ABSENT summary
    ∧ late = countStatus LATE summary.
Proof.
  intros Hstaff Hclass Hin Hday.
  destruct (classAttendance_staff _ _ _ _ _ _ _ Hstaff Hclass Hin Hday)
    as (w' & Hrun & Hdb).
  cbn zeta in Hrun. rewrite countStatus_total in Hrun.
  eexists _, _, _, _, w'. split; [exact Hrun|]. split; [exact Hdb|].
  rewrite <- list_fmap_compose.
  assert (∀ l : list string,
            (fst ∘ (λ studentId : string,
                      (studentId,
                       statusOf
                         (filter (λ a, att_classId a = classId
                                       ∧ day <= att_date a < day + DAY)
                            (attendances (db w))) studentId))) <$> l = l) as ->.
  { intros l. induction l as [|x l IH]; [reflexivity|]. cbn. by rewrite IH. }
  split_and!; try reflexivity.
  - apply (NoDup_fmap_2_strong fst).
    + intros [s1 c1] [s2 c2] H1%elem_of_elements H2%elem_of_elements.
      apply elem_of_filter in H1 as [H1 _]. apply elem_of_filter in H2 as [H2 _].
      cbn in *. congruence.
    + apply NoDup_elements.
  - intros studentId. rewrite list_elem_of_fmap. split.
    + intros ([s c] & -> & H%elem_of_elements).
      apply elem_of_filter in H as [Hc H]. cbn in *. by subst c.
    + intros H. exists (studentId, classId). split; [reflexivity|].
      apply elem_of_elements, elem_of_filter. by split.
  - symmetry. apply countStatus_total.
Qed.

(** X22: In a class report, the status listed for a student is the status
    of the first attendance row stored for this student, this class and the
    day reported on, from its midnight to the next, and ABSENT when there
    is no such row. *)
Theorem classAttendance_status classId date req w u classData day :
  staffRequest jwt_verify req (db w) u →
  classes (db w) !! classId = Some classData →
  inCharge (db w) u classData →
  reportDay setHours0 parseDate date w = Some day →
  ∃ summary total present absent late w',
    classAttendance jwt_verify setHours0 parseDate classId date req w =
      (Some (ClassReport day summary total present absent late), w')
    ∧ ∀ studentId status,
        (studentId, status) ∈ summary →
        (markedToday (db w) studentId classId day ∨ status = ABSENT)
        ∧ status =
            match List.find (attendanceMatches studentId classId day (day + DAY))
                    (attendances (db w)) with
            | Some attendance => att_status attendance
            | None => ABSENT
            end.
Proof.
  intros Hstaff Hclass Hin Hday.
  destruct (classAttendance_staff _ _ _ _ _ _ _ Hstaff Hclass Hin Hday)
    as (w' & Hrun & _).
  cbn zeta in Hrun. eexists _, _, _, _, _, w'. split; [exact Hrun|].
  intros studentId status (s & [= -> ->] & _)%list_elem_of_fmap.
  rewrite statusOf_attendanceMatches.
  split; [|reflexivity].
  destruct (decide (markedToday (db w) s classId day)) as [Hm|Hm]; [by left|].
  right. by rewrite (find_not_markedToday _ _ _ _ Hm).
Qed.

(** X23: A teacher who is not in charge of the class gets no report on it:
    the answer is 403 and nothing has changed. *)
Theorem classAttendance_foreign_class classId date req w u classData :
  staffRequest jwt_verify req (db w) u →
  classes (db w) !! classId = Some classData →
  ¬ inCharge (db w) u classData →
  classAttendance jwt_verify setHours0 parseDate classId date req w =
    (Some (Plain (failure 403 "Access denied"
                    "You can only view attendance for your own classes")), w).
Proof.
  intros Hstaff Hclass Hin. unfold classAttendance.
  rewrite (guarded_staff' jwt_verify _ _ _ _ u Hstaff).
  unfold guarded, andThen. cbn [through run next].
  rewrite classAttendanceHandler_cases, Hclass. cbn [req_user set_user].
  destruct Hstaff as (_ & _ & Hrole). unfold inCharge in Hin.
  destruct (au_role u); [done | | by destruct Hin].
  rewrite (bool_decide_eq_true_2 (TEACHER = TEACHER) eq_refl).
  destruct (teacherProfiles (db w) !! au_id u) as [teacherProfile|]; [|done].
  destruct (String.eqb_spec (tp_id teacherProfile) (class_teacherId classData));
    [contradiction | reflexivity].
Qed.

(** X24: There is no report on a class that does not exist: a teacher or
    an administrator who asks for one gets 404, and nothing has changed. *)
Theorem classAttendance_missing_class classId date req w u :
  staffRequest jwt_verify req (db w) u →
  classes (db w) !! classId = None →
  classAttendance jwt_verify setHours0 parseDate classId date req w =
    (Some (Plain (failure 404 "Class not found"
                    "The specified class does not exist")), w).
Proof.
  intros Hstaff Hclass. unfold classAttendance.
  rewrite (guarded_staff' jwt_verify _ _ _ _ u Hstaff).
  unfold guarded, andThen. cbn [through run next].
  by rewrite classAttendanceHandler_cases, Hclass.
Qed.

(** X25: Whoever asks for a class report, for whatever class and date, and
    whatever is answered: an answer is given and no table is changed. *)
Theorem classAttendance_read_only classId date req w :
  ∃ reply w',
    classAttendance jwt_verify setHours0 parseDate classId date req w =
      (Some reply, w')
    ∧ db w' = db w.
Proof.
  unfold classAttendance, guarded, andThen. rewrite run_through_gate.
  destruct (authenticated jwt_verify req (db w)) as [u|]; [|by eexists _, _].
  destruct (includes [TEACHER; ADMIN] (au_role u)); [|by eexists _, _].
  cbn [through run next]. rewrite classAttendanceHandler_cases.
  destruct (classes (db w) !! classId) as [classData|]; [|by eexists _, _].
  cbn [req_user set_user]. cbn zeta.
  assert (∀ target : option Z * World, db target.2 = db w →
            ∃ reply w',
              match target.1 with
              | None =>
                  (Some (Plain (failure 500 "Attendance retrieval failed"
                                  "Failed to retrieve class attendance")), target.2)
              | Some instant =>
                  (Some (ClassReport (setHours0 instant)
                           ((λ studentId,
                               (studentId,
                                statusOf
                                  (filter (λ a, att_classId a = classId
                                                ∧ setHours0 instant <= att_date a
                                                  < setHours0 instant + DAY)
                                     (attendances (db w))) studentId))
                              <$> (elements (filter (λ e, e.2 = classId)
                                               (enrollments (db w)))).*1)
                           (Z.of_nat (length
                              ((λ studentId,
                                  (studentId,
                                   statusOf
                                     (filter (λ a, att_classId a = classId
                                                   ∧ setHours0 instant <= att_date a
                                                     < setHours0 instant + DAY)
                                        (attendances (db w))) studentId))
                                 <$> (elements (filter (λ e, e.2 = classId)
                                                  (enrollments (db w)))).*1)))
                           (countStatus PRESENT
                              ((λ studentId,
                                  (studentId,
                                   statusOf
                                     (filter (λ a, att_classId a = classId
                                                   ∧ setHours0 instant <= att_date a
                                                     < setHours0 instant + DAY)
                                        (attendances (db w))) studentId))
                                 <$> (elements (filter (λ e, e.2 = classId)
                                                  (enrollments (db w)))).*1))
                           (countStatus ABSENT
                              ((λ studentId,
                                  (studentId,
                                   statusOf
                                     (filter (λ a, att_classId a = classId
                                                   ∧ setHours0 instant <= att_date a
                                                     < setHours0 instant + DAY)
                                        (attendances (db w))) studentId))
                                 <$> (elements (filter (λ e, e.2 = classId)
                                                  (enrollments (db w)))).*1))
                           (countStatus LATE
                              ((λ studentId,
                                  (studentId,
                                   statusOf
                                     (filter (λ a, att_classId a = classId
                                                   ∧ setHours0 instant <= att_date a
                                                     < setHours0 instant + DAY)
                                        (attendances (db w))) studentId))
                                 <$> (elements (filter (λ e, e.2 = classId)
                                                  (enrollments (db w)))).*1))),
                   target.2)
              end = (Some reply, w') ∧ db w' = db w) as Hreport.
  { intros [[instant|] w0] Hdb; by eexists _, _. }
  assert (db (match date with
              | None | Some "" => (Some (clock w (reads w)), tick w)
              | Some date => (parseDate date, w)
              end).2 = db w) as Hdb
    by (destruct date as [[|c date]|]; by destruct w).
  specialize (Hreport _ Hdb).
  destruct (bool_decide (au_role u = TEACHER)); [|exact Hreport].
  destruct (teacherProfiles (db w) !! au_id u) as [teacherProfile|];
    [|by eexists _, _].
  destruct (String.eqb (tp_id teacherProfile) (class_teacherId classData));
    [exact Hreport | by eexists _, _].
Qed.

End ClassAttendance.


(** ** [GET /attendance/student] and [DELETE /users/:id] *)

Section Summary.
Variable jwt_verify : string → option string.
Variable setHours0 : Z → Z.

Lemma run_studentAttendance req w u student :
  authenticated jwt_verify req (db w) = Some u →
  au_role u = STUDENT →
  studentProfile u = Some student →
  run (studentAttendance jwt_verify req) w =
    let rows :=
      merge_sort dateDesc
        (filter (λ a, att_studentId a = sp_id student) (attendances (db w))) in
    (Some {| status := 200;
             body := StudentJson rows (totalClasses rows) (presentClasses rows)
                       (totalClasses rows - presentClasses rows)
                       (percentage rows) |}, w).
Proof.
  intros Hu Hrole Hst. unfold studentAttendance.
  rewrite run_gate, Hu, Hrole. cbn [includes existsb].
  rewrite bool_decide_eq_true_2 by reflexivity. cbn [orb route].
  unfold studentAttendanceHandler. cbn [req_user set_user mbind option_bind].
  rewrite Hst. by destruct w.
Qed.

(** X26: A signed-in student to whose user no student profile is attached
    gets no summary: reading the profile's id fails, and the answer is
    500; nothing has changed. *)
Theorem studentAttendance_without_profile req w u :
  authenticated jwt_verify req (db w) = Some u →
  au_role u = STUDENT →
  studentProfile u = None →
  run (studentAttendance jwt_verify req) w =
    (Some (failure 500 "Attendance retrieval failed"
             "Failed to retrieve student attendance"), w).
Proof.
  intros Hu Hrole Hst. unfold studentAttendance.
  rewrite run_gate, Hu, Hrole. cbn [includes existsb].
  rewrite bool_decide_eq_true_2 by reflexivity. cbn [orb route].
  unfold studentAttendanceHandler. cbn [req_user set_user mbind option_bind].
  rewrite Hst. by destruct w.
Qed.

(** X27: A scan that is answered 200 shows in the student's summary: with
    the same credentials, the summary asked for after the scan counts one
    row more in total and one more present than the summary asked for
    before it, and as many absent. *)
Theorem scan_then_studentAttendance req w response w1 :
  run (scan jwt_verify setHours0 req) w = (Some response, w1) →
  status response = 200%nat →
  ∃ rows rows1 total present absent,
    run (studentAttendance jwt_verify req) w =
      (Some {| status := 200;
               body := StudentJson rows total present absent (percentage rows) |},
       w)
    ∧ run (studentAttendance jwt_verify req) w1 =
        (Some {| status := 200;
                 body := StudentJson rows1 (total + 1) (present + 1) absent
                           (percentage rows1) |}, w1)
    ∧ total = Z.of_nat (length rows)
    ∧ absent = total - present.
Proof.
  intros Hrun H200.
  destruct (scan_inserts jwt_verify setHours0 req w)
    as [[_ Hnot]|(u & student & qr & Hreq & Hst & _ & _ & _ & _ & Hscan)].
  { exfalso. apply (Hnot response); [by rewrite Hrun | exact H200]. }
  destruct Hreq as (_ & _ & Hu & Hrole).
  rewrite Hscan in Hrun. injection Hrun as _ <-.
  rewrite (run_studentAttendance req w u student Hu Hrole Hst).
  set (new := scanned student (qr_classId qr) (clock w (S (S (reads w))))
                (body_qrCode req)).
  set (w1 := set_db _ _).
  assert (db w1 = set_attendances (attendances (db w) ++ [new]) (db w)) as Hdb
    by (by destruct w).
  rewrite (run_studentAttendance req w1 u student);
    [|by rewrite Hdb, authenticated_set_attendances | exact Hrole | exact Hst].
  rewrite Hdb. cbn [attendances set_attendances]. cbn zeta.
  set (rows := merge_sort dateDesc (filter _ (attendances (db w)))).
  set (rows1 := merge_sort dateDesc (filter _ (attendances (db w) ++ [new]))).
  assert (rows1 ≡ₚ new :: rows) as Hperm.
  { subst rows rows1. rewrite !merge_sort_Permutation, filter_app.
    rewrite filter_cons_True by reflexivity. rewrite filter_nil.
    by rewrite <- Permutation_cons_append. }
  assert (totalClasses rows1 = totalClasses rows + 1) as ->.
  { unfold totalClasses. rewrite Hperm. cbn [length]. lia. }
  assert (presentClasses rows1 = presentClasses rows + 1) as ->.
  { unfold presentClasses. rewrite Hperm.
    rewrite filter_cons_True by reflexivity. cbn [length]. lia. }
  exists rows, rows1, (totalClasses rows), (presentClasses rows),
    (totalClasses rows - presentClasses rows).
  split; [reflexivity|]. split; [|done].
  by replace (totalClasses rows + 1 - (presentClasses rows + 1))
    with (totalClasses rows - presentClasses rows) by lia.
Qed.

(** X28: An administrator who deletes a user that does not exist is
    answered 404, and nothing has changed: the storage calls made are the
    lookup of the administrator and the lookup of the user, and no
    deletion. *)
Theorem deleteUser_missing req w admin :
  authenticated jwt_verify req (db w) = Some admin →
  au_role admin = ADMIN →
  users (db w) !! params_id req = None →
  run (deleteUser jwt_verify req) w =
    (Some (failure 404 "User not found" "The specified user does not exist"), w)
  ∧ issued (deleteUser jwt_verify req) w =
      [UserFindUnique (au_id admin); UserFindUnique (params_id req)].
Proof.
  intros Hadmin Hrole Htarget. unfold deleteUser.
  rewrite run_gate, (issued_gate _ _ _ _ _ _ admin Hadmin), Hadmin, Hrole.
  cbn [includes existsb].
  rewrite bool_decide_eq_true_2 by reflexivity. cbn [orb route].
  unfold deleteUserHandler. cbn [params_id set_user].
  destruct w as [d c n rnd m]; cbn in *. by rewrite Htarget.
Qed.

End Summary.

(** ** The properties at work *)

Import Campus.

(** A hypothesis about the example, settled by evaluation. *)
Ltac evaluated :=
  lazymatch goal with
  | |- db _ = db _ => reflexivity
  | |- _ => first [ compute_done
                  | vm_compute; split_and!; first [reflexivity | discriminate] ]
  end.

Lemma bearerToken_second_word_witness :
  bearerToken aliceScans = "jwt:u-alice".
Proof.
  apply (bearerToken_second_word aliceScans "Bearer" "jwt:u-alice" "");
    [reflexivity | reflexivity | left; reflexivity].
Defined.

Lemma gate_unauthenticated_witness :
  run (scan jwt utc anonymous) classroom =
    (Some (failure 401 "Access denied" "No token provided"), classroom)
  ∧ issued (scan jwt utc anonymous) classroom = [].
Proof.
  destruct (gate_unauthenticated jwt
              [authorizeRoles [STUDENT]; notEmpty "qrCode" body_qrCode]
              (scanHandler utc) anonymous classroom) as (Hrun & _ & Hissued);
    [evaluated|].
  split; [exact Hrun | apply Hissued; reflexivity].
Defined.

Lemma gate_roles_witness :
  run (deleteUser jwt (about "u-admin" "u-bob")) classroom =
    run (deleteUserHandler (set_user adminUser (about "u-admin" "u-bob"))) classroom
  ∧ run (deleteUser jwt (about "u-john" "u-bob")) classroom =
      (Some (failure 403 "Access denied" "Insufficient permissions"), classroom)
  ∧ issued (deleteUser jwt (about "u-john" "u-bob")) classroom =
      [UserFindUnique "u-john"].
Proof.
  split.
  - apply (gate_roles jwt [ADMIN] [] deleteUserHandler (about "u-admin" "u-bob")
             classroom adminUser); [evaluated | compute_done].
  - apply (gate_roles jwt [ADMIN] [] deleteUserHandler (about "u-john" "u-bob")
             classroom johnUser); [evaluated | compute_done].
Defined.
Lemma generateQr_issues_witness :
  (run (generateQr jwt issue) (world T school)).1 =
    Some {| status := 200; body := QrJson code (T + 16 * MINUTE) |}
  ∧ qrCodes (db (run (generateQr jwt issue) (world T school)).2) !! code = Some token
  ∧ run (generateQr jwt issue) reissued =
      (Some (failure 500 "QR generation failed" "Failed to generate QR code"),
       tick (drawn (tick reissued))).
Proof.
  split_and!.
  - rewrite (proj1 (generateQr_issues jwt issue (world T school) johnUser mathClass
                      ltac:(evaluated) ltac:(evaluated) ltac:(evaluated)));
      evaluated.
  - rewrite (proj1 (generateQr_issues jwt issue (world T school) johnUser mathClass
                      ltac:(evaluated) ltac:(evaluated) ltac:(evaluated)));
      evaluated.
  - apply (generateQr_issues jwt issue reissued johnUser mathClass); evaluated.
Defined.

Lemma generateQr_foreign_class_witness :
  run (generateQr jwt (about "u-mary" "c-math")) artRoom =
    (Some (failure 403 "Access denied"
             "You can only generate QR codes for your own classes"), artRoom).
Proof.
  apply (generateQr_foreign_class jwt (about "u-mary" "c-math") artRoom maryUser
           mathClass); evaluated.
Defined.

Lemma generateQr_missing_class_witness :
  run (generateQr jwt (about "u-john" "c-latin")) classroom =
    (Some (failure 404 "Class not found" "The specified class does not exist"),
     classroom).
Proof.
  apply (generateQr_missing_class jwt (about "u-john" "c-latin") classroom johnUser);
    evaluated.
Defined.

Lemma scan_invalidQrCode_witness :
  run (scan jwt utc aliceScans) (world T school) =
    (Some invalidQrCode, world T school).
Proof.
  apply (scan_invalidQrCode jwt utc aliceScans (world T school) aliceUser);
    evaluated.
Defined.

Lemma scan_empty_qrCode_witness :
  run (scan jwt utc (about "u-alice" "c-math")) classroom =
    (Some {| status := 400; body := ValidationJson ["qrCode"] |}, classroom)
  ∧ issued (scan jwt utc (about "u-alice" "c-math")) classroom =
      [UserFindUnique "u-alice"].
Proof.
  apply (scan_empty_qrCode jwt utc (about "u-alice" "c-math") classroom aliceUser);
    evaluated.
Defined.

Lemma scan_marks_witness :
  run (scan jwt utc aliceScans) classroom =
    (Some {| status := 200;
             body := ScanJson (T + 4 * MINUTE) PRESENT "Mathematics 10A" |},
     set_db
       (set_attendances
          (attendances (db classroom) ++
           [scanned alice "c-math" (T + 4 * MINUTE) code])
          (db classroom))
       (tick (tick (tick classroom)))).
Proof.
  apply (scan_marks jwt utc aliceScans classroom aliceUser alice token mathClass);
    evaluated.
Defined.

Lemma scan_twice_witness :
  run (scan jwt utc aliceScans) aliceMarked =
    (Some alreadyMarked, tick (tick aliceMarked)).
Proof.
  apply (scan_twice jwt utc aliceScans classroom
           {| status := 200;
              body := ScanJson (T + 4 * MINUTE) PRESENT "Mathematics 10A" |}
           aliceMarked aliceMarked token);
    [apply pair_fst_snd; [vm_compute; reflexivity | reflexivity] | evaluated..].
Defined.

Lemma issue_then_scan_witness :
  ∃ className,
    run (scan jwt utc aliceScans) classroom =
      (Some {| status := 200;
               body := ScanJson (T + 4 * MINUTE) PRESENT className |},
       set_db
         (set_attendances
            (attendances (db classroom) ++
             [scanned alice "c-math" (T + 4 * MINUTE) code])
            (db classroom))
         (tick (tick (tick classroom)))).
Proof.
  apply (issue_then_scan jwt utc issue (world T school) code (T + 16 * MINUTE)
           classroom aliceScans classroom aliceUser alice);
    [apply pair_fst_snd; [vm_compute; reflexivity | reflexivity] | evaluated..].
Defined.

Lemma enroll_adds_witness :
  enroll jwt "s-carol" (about "u-john" "c-math") classroom =
    (Some (Created {| enr_studentId := "s-carol"; enr_classId := "c-math" |}),
     set_db (set_enrollments
               ({[ ("s-carol", "c-math") ]} ∪ enrollments (db classroom))
               (db classroom)) classroom).
Proof.
  apply (enroll_adds jwt "s-carol" (about "u-john" "c-math") classroom johnUser);
    evaluated.
Defined.

Lemma enroll_already_enrolled_witness :
  enroll jwt "s-carol" (about "u-john" "c-math") carolEnrolled =
    (Some (Plain (failure 400 "Already enrolled"
                    "Student is already enrolled in this class")), carolEnrolled).
Proof.
  apply (enroll_already_enrolled jwt "s-carol" (about "u-john" "c-math")
           carolEnrolled johnUser); evaluated.
Defined.

Lemma enroll_unknown_witness :
  enroll jwt "s-carol" (about "u-john" "c-latin") classroom =
    (Some (Plain (failure 404 "Class not found"
                    "The specified class does not exist")), classroom)
  ∧ enroll jwt "s-erin" (about "u-john" "c-math") classroom =
      (Some (Plain (failure 404 "Student not found"
                      "The specified student does not exist")), classroom).
Proof.
  split.
  - apply (enroll_unknown jwt "s-carol" (about "u-john" "c-latin") classroom
             johnUser); evaluated.
  - apply (enroll_unknown jwt "s-erin" (about "u-john" "c-math") classroom
             johnUser); evaluated.
Defined.

Lemma unenroll_removes_witness :
  unenroll jwt "s-alice" (about "u-john" "c-math") classroom =
    (Some (Plain {| status := 200;
                    body := MessageJson "Student removed from class successfully" |}),
     set_db (set_enrollments
               (enrollments (db classroom) ∖ {[ ("s-alice", "c-math") ]})
               (db classroom)) classroom)
  ∧ unenroll jwt "s-carol" (about "u-john" "c-math") classroom =
      (Some (Plain (failure 500 "Enrollment removal failed"
                      "Failed to remove student from class")), classroom).
Proof.
  split.
  - apply (unenroll_removes jwt "s-alice" (about "u-john" "c-math") classroom
             johnUser); evaluated.
  - apply (unenroll_removes jwt "s-carol" (about "u-john" "c-math") classroom
             johnUser); evaluated.
Defined.

Lemma enroll_then_unenroll_witness :
  unenroll jwt "s-carol" (about "u-john" "c-math") carolEnrolled =
    (Some (Plain {| status := 200;
                    body := MessageJson "Student removed from class successfully" |}),
     classroom).
Proof.
  apply (enroll_then_unenroll jwt "s-carol" (about "u-john" "c-math") classroom
           carolEnrolled {| enr_studentId := "s-carol"; enr_classId := "c-math" |}).
  apply pair_fst_snd; [vm_compute; reflexivity | reflexivity].
Defined.

Lemma enroll_then_scan_witness :
  ∃ className,
    run (scan jwt utc carolScans) carolEnrolled =
      (Some {| status := 200;
               body := ScanJson (T + 4 * MINUTE) PRESENT className |},
       set_db
         (set_attendances
            (attendances (db carolEnrolled) ++
             [scanned carol "c-math" (T + 4 * MINUTE) code])
            (db carolEnrolled))
         (tick (tick (tick carolEnrolled)))).
Proof.
  apply (enroll_then_scan jwt utc "s-carol" (about "u-john" "c-math") classroom
           {| enr_studentId := "s-carol"; enr_classId := "c-math" |} carolEnrolled
           carolScans carolEnrolled carolUser carol token);
    [apply pair_fst_snd; [vm_compute; reflexivity | reflexivity] | evaluated..].
Defined.

Lemma unenroll_then_scan_witness :
  run (scan jwt utc aliceScans) aliceRemoved = (Some notEnrolled, tick aliceRemoved).
Proof.
  apply (unenroll_then_scan jwt utc "s-alice" (about "u-john" "c-math") classroom
           aliceRemoved aliceScans aliceRemoved aliceUser alice token);
    [apply pair_fst_snd; [vm_compute; reflexivity | reflexivity] | evaluated..].
Defined.

Lemma classAttendance_roll_witness :
  ∃ summary present absent late w',
    classAttendance jwt utc isoDate "c-math" (Some "2023-11-14")
      (about "u-john" "c-math") aliceMarked =
      (Some (ClassReport (utc T) summary (present + absent + late)
               present absent late), w')
    ∧ db w' = db aliceMarked
    ∧ NoDup summary.*1
    ∧ (∀ studentId,
         studentId ∈ summary.*1
         ↔ (studentId, "c-math") ∈ enrollments (db aliceMarked))
    ∧ present + absent + late = Z.of_nat (length summary)
    ∧ present = countStatus PRESENT summary
    ∧ absent = countStatus ABSENT summary
    ∧ late = countStatus LATE summary.
Proof.
  apply (classAttendance_roll jwt utc isoDate "c-math" (Some "2023-11-14")
           (about "u-john" "c-math") aliceMarked johnUser mathClass (utc T));
    evaluated.
Defined.

Lemma classAttendance_status_witness :
  ∃ summary total present absent late w',
    classAttendance jwt utc isoDate "c-math" None
      (about "u-admin" "c-math") aliceMarked =
      (Some (ClassReport (utc T) summary total present absent late), w')
    ∧ ∀ studentId status,
        (studentId, status) ∈ summary →
        (markedToday (db aliceMarked) studentId "c-math" (utc T)
         ∨ status = ABSENT)
        ∧ status =
            match List.find (attendanceMatches studentId "c-math" (utc T)
                               (utc T + DAY))
                    (attendances (db aliceMarked)) with
            | Some attendance => att_status attendance
            | None => ABSENT
            end.
Proof.
  apply (classAttendance_status jwt utc isoDate "c-math" None
           (about "u-admin" "c-math") aliceMarked adminUser mathClass (utc T));
    evaluated.
Defined.

Lemma classAttendance_foreign_class_witness :
  classAttendance jwt utc isoDate "c-math" None (about "u-mary" "c-math") artRoom =
    (Some (Plain (failure 403 "Access denied"
                    "You can only view attendance for your own classes")), artRoom).
Proof.
  apply (classAttendance_foreign_class jwt utc isoDate "c-math" None
           (about "u-mary" "c-math") artRoom maryUser mathClass); evaluated.
Defined.

Lemma classAttendance_missing_class_witness :
  classAttendance jwt utc isoDate "c-latin" None (about "u-john" "c-latin")
    classroom =
    (Some (Plain (failure 404 "Class not found"
                    "The specified class does not exist")), classroom).
Proof.
  apply (classAttendance_missing_class jwt utc isoDate "c-latin" None
           (about "u-john" "c-latin") classroom johnUser); evaluated.
Defined.

Lemma studentAttendance_without_profile_witness :
  run (studentAttendance jwt (about "u-dave" "c-math")) artRoom =
    (Some (failure 500 "Attendance retrieval failed"
             "Failed to retrieve student attendance"), artRoom).
Proof.
  apply (studentAttendance_without_profile jwt (about "u-dave" "c-math") artRoom
           daveUser); evaluated.
Defined.

Lemma scan_then_studentAttendance_witness :
  ∃ rows rows1 total present absent,
    run (studentAttendance jwt aliceScans) classroom =
      (Some {| status := 200;
               body := StudentJson rows total present absent (percentage rows) |},
       classroom)
    ∧ run (studentAttendance jwt aliceScans) aliceMarked =
        (Some {| status := 200;
                 body := StudentJson rows1 (total + 1) (present + 1) absent
                           (percentage rows1) |}, aliceMarked)
    ∧ total = Z.of_nat (length rows)
    ∧ absent = total - present.
Proof.
  apply (scan_then_studentAttendance jwt utc aliceScans classroom
           {| status := 200;
              body := ScanJson (T + 4 * MINUTE) PRESENT "Mathematics 10A" |}
           aliceMarked);
    [apply pair_fst_snd; [vm_compute; reflexivity | reflexivity] | reflexivity].
Defined.

Lemma deleteUser_missing_witness :
  run (deleteUser jwt (about "u-admin" "u-erin")) aliceMarked =
    (Some (failure 404 "User not found" "The specified user does not exist"),
     aliceMarked)
  ∧ issued (deleteUser jwt (about "u-admin" "u-erin")) aliceMarked =
      [UserFindUnique "u-admin"; UserFindUnique "u-erin"].
Proof.
  apply (deleteUser_missing jwt (about "u-admin" "u-erin") aliceMarked adminUser);
    evaluated.
Defined.

(** The report on the class for the day of the check-in: Alice was
    present, Bob is counted absent. *)
Example classAttendance_after_the_lesson :
  ∃ summary,
    (classAttendance jwt utc isoDate "c-math" (Some "2023-11-14")
       (about "u-john" "c-math") aliceMarked).1 =
      Some (ClassReport (utc T) summary 2 1 1 0)
    ∧ summary ≡ₚ [("s-alice", PRESENT); ("s-bob", ABSENT)].
Proof. eexists. split; [vm_compute; reflexivity | reflexivity]. Qed.
